(** * Plumbing: a look under the hood of [mxnet.gluon]

    A shallow embedding of the notebook [P03.5-C01-plumbing.ipynb]: the
    [MLP] block it defines, the two [Sequential] networks it builds, and
    the part of [mxnet.gluon] these run on (parameters with deferred
    initialization, [Dense], [Sequential], [Block.__call__]).

    The notebook's own code is the class [MLP], the cells that build
    [net1] and [net2], and the body of [Sequential.forward] that it
    quotes.  Everything else is [mxnet.gluon], whose code is not under
    src/: it is modelled from what the notebook and the spec say about
    it, each such definition saying so.

    Python objects that are shared and mutated (the [Parameter]s of a
    layer) live in a heap indexed by object identity; a block refers to
    its parameters by identity.  Code that can raise runs in a state and
    exception monad. *)

From Stdlib Require Import ZArith QArith_base.
From stdpp Require Import gmap strings pretty list fin_maps.

Set Default Proof Using "Type".

(** ** Scalars

    The framework computes on [float32].  Floating point is not modelled:
    the element type is kept abstract, with the four operations the
    network needs. *)

Class Scalar (T : Type) := {
  zero : T;
  add : T → T → T;
  mul : T → T → T;
  tmax : T → T → T
}.

(** [mx.init]: the initializers the notebook mentions.  [Zeros] is the
    ['zeros'] that [Dense] gives its bias, [Uniform] the default of
    [Block.initialize]. *)
Inductive Initializer :=
| Xavier (magnitude : Q)
| Uniform
| Zeros.

(** Random initializers draw from a generator that is threaded through
    the state. *)
Class Sampler (T Rng : Type) := {
  sample : Initializer → list nat → Rng → list T * Rng
}.

(** ** NDArray: a shape and the elements in row-major order *)

Record NDArray (T : Type) := mkNDArray {
  nd_shape : list nat;
  nd_data : list T
}.
Arguments mkNDArray {T} _ _.
Arguments nd_shape {T} _.
Arguments nd_data {T} _.

(** [np.prod(shape)] *)
Definition prod_shape (shape : list nat) : nat := foldr Nat.mul 1 shape.
Arguments prod_shape : simpl never.

(** ** Exceptions *)

Inductive Exception :=
| DeferredInitializationError
| RuntimeError      (* Parameter has not been initialized *)
| ValueError        (* invalid shape, or a shape that cannot be inferred *)
| AssertionError    (* deferred initialization with an unknown shape *)
| MXNetError        (* shape mismatch inside an operator *)
| NoSuchParameter.  (* a dangling identity; no Python object is such *)

Inductive Result (A : Type) :=
| Ok (a : A)
| Raise (e : Exception).
Arguments Ok {A} _.
Arguments Raise {A} _.

(** ** Parameters

    [gluon.Parameter]; the record is called [ParameterObj] because
    [Parameter] is a reserved word. *)

Record ParameterObj (T : Type) := mkParameter {
  name : string;
  shape : list nat;                       (* 0 marks an unknown dimension *)
  init : option Initializer;              (* the parameter's own initializer *)
  allow_deferred_init : bool;
  _data : option (list T);
  _deferred_init : option Initializer     (* noted by [initialize] *)
}.
Arguments mkParameter {T} _ _ _ _ _ _.
Arguments name {T} _.
Arguments shape {T} _.
Arguments init {T} _.
Arguments allow_deferred_init {T} _.
Arguments _data {T} _.
Arguments _deferred_init {T} _.

(** Assignments to the attributes of a parameter. *)
Definition set_shape {T} (v : ParameterObj T) (sh : list nat) : ParameterObj T :=
  mkParameter (name v) sh (init v) (allow_deferred_init v) (_data v)
              (_deferred_init v).

Definition set_data {T} (v : ParameterObj T) (d : list T) : ParameterObj T :=
  mkParameter (name v) (shape v) (init v) (allow_deferred_init v) (Some d)
              (_deferred_init v).

Definition set_deferred_init {T} (v : ParameterObj T)
    (i : option Initializer) : ParameterObj T :=
  mkParameter (name v) (shape v) (init v) (allow_deferred_init v) (_data v) i.

(** One call of an initializer on a freshly allocated array. *)
Record InitCall := mkInitCall {
  ic_name : string;
  ic_init : Initializer;
  ic_shape : list nat
}.

Record State (T Rng : Type) := mkState {
  heap : gmap nat (ParameterObj T);
  next_id : nat;
  rng : Rng;
  init_log : list InitCall      (* newest first *)
}.
Arguments mkState {T Rng} _ _ _ _.
Arguments heap {T Rng} _.
Arguments next_id {T Rng} _.
Arguments rng {T Rng} _.
Arguments init_log {T Rng} _.

(** ** The monad *)

Definition M (T Rng : Type) (A : Type) : Type :=
  State T Rng → Result A * State T Rng.

#[export] Instance M_ret {T Rng} : MRet (M T Rng) :=
  λ A a σ, (Ok a, σ).

#[export] Instance M_bind {T Rng} : MBind (M T Rng) :=
  λ A B f m σ,
    match m σ with
    | (Ok a, σ') => f a σ'
    | (Raise e, σ') => (Raise e, σ')
    end.

#[export] Instance M_fmap {T Rng} : FMap (M T Rng) :=
  λ A B f m σ,
    match m σ with
    | (Ok a, σ') => (Ok (f a), σ')
    | (Raise e, σ') => (Raise e, σ')
    end.

Definition raise {T Rng A} (e : Exception) : M T Rng A :=
  λ σ, (Raise e, σ).

(** [try: body except DeferredInitializationError: handler] *)
Definition try_except_deferred {T Rng A} (body handler : M T Rng A)
  : M T Rng A :=
  λ σ,
    match body σ with
    | (Raise DeferredInitializationError, σ') => handler σ'
    | r => r
    end.

Section Framework.
Context {T Rng : Type} `{Scalar T} `{Sampler T Rng}.

Local Abbreviation M := (M T Rng).

Definition get_param (p : nat) : M (ParameterObj T) :=
  λ σ,
    match heap σ !! p with
    | Some v => (Ok v, σ)
    | None => (Raise NoSuchParameter, σ)
    end.

Definition set_param (p : nat) (v : ParameterObj T) : M unit :=
  λ σ, (Ok (), mkState (<[p := v]> (heap σ)) (next_id σ) (rng σ) (init_log σ)).

(** A new [Parameter] object. *)
Definition new_param (v : ParameterObj T) : M nat :=
  λ σ, (Ok (next_id σ),
        mkState (<[next_id σ := v]> (heap σ)) (S (next_id σ)) (rng σ)
                (init_log σ)).

(** Modelled from the spec: the initializers of [mx.init], not under
    src/.  The elements an initializer writes are zeros for ['zeros'],
    and a draw from the generator for the random ones. *)
Definition draw (i : Initializer) (sh : list nat) (g : Rng) : list T * Rng :=
  match i with
  | Zeros => (replicate (prod_shape sh) zero, g)
  | _ => sample i sh g
  end.

(** The initializer runs on an array of the given shape. *)
Definition run_initializer (nm : string) (i : Initializer) (sh : list nat)
  : M (list T) :=
  λ σ,
    (Ok (draw i sh (rng σ)).1,
     mkState (heap σ) (next_id σ) (draw i sh (rng σ)).2
             (mkInitCall nm i sh :: init_log σ)).

(** Modelled from the spec: [Parameter._finish_deferred_init] belongs to
    [mxnet.gluon], which is not under src/.  The notebook says of it that
    "the parameters are instantiated and the initializer is called once
    we provide the network with some input": the noted initializer is
    taken, the array of the parameter's shape is created and
    initialized.  The framework asserts that the shape is known by
    then. *)
Definition Parameter__finish_deferred_init (p : nat) : M unit :=
  v ← get_param p;
  match _deferred_init v with
  | None => mret ()
  | Some i =>
      let v := set_deferred_init v None in
      _ ← set_param p v;
      if decide (prod_shape (shape v) = 0) then raise AssertionError
      else
        d ← run_initializer (name v) i (shape v);
        set_param p (set_data v d)
  end.

(** Modelled from the spec: [Parameter.initialize] belongs to
    [mxnet.gluon], which is not under src/.  The notebook describes its
    two behaviours: for a parameter whose shape is not yet known (a zero
    dimension) it "is not actually initializing" but "making a note of
    which initializer to associate"; a parameter whose shape is given
    "can be initialized before we see any real data".  The parameter's
    own initializer takes precedence over the one passed in. *)
Definition Parameter_initialize (p : nat) (i : option Initializer)
    (default_init : Initializer) : M unit :=
  v ← get_param p;
  let i := match i with
           | Some i => i
           | None => match init v with
                     | None => default_init
                     | Some own => own
                     end
           end in
  let noted := set_deferred_init v (Some i) in
  if decide (prod_shape (shape v) = 0) then
    if allow_deferred_init v then set_param p noted
    else raise ValueError
  else
    _ ← set_param p noted;
    Parameter__finish_deferred_init p.

(** Modelled from the spec: [Parameter.data] of [mxnet.gluon], not under
    src/: the array of a materialized parameter; otherwise
    [DeferredInitializationError] when an initializer is noted, and a
    [RuntimeError] when [initialize] was never called. *)
Definition Parameter_data (p : nat) : M (NDArray T) :=
  v ← get_param p;
  match _data v with
  | Some d => mret (mkNDArray (shape v) d)
  | None =>
      match _deferred_init v with
      | Some _ => raise DeferredInitializationError
      | None => raise RuntimeError
      end
  end.

(** The states these leave: the initializer that [initialize] settles
    on for a parameter, the state in which it is noted for [p], and the
    state in which [p] has been materialized by it. *)
Definition chosen (v : ParameterObj T) (default_init : Initializer)
  : Initializer :=
  match init v with
  | None => default_init
  | Some own => own
  end.

Definition note (p : nat) (v : ParameterObj T) (i : Initializer)
    (σ : State T Rng) : State T Rng :=
  mkState (<[p := set_deferred_init v (Some i)]> (heap σ))
          (next_id σ) (rng σ) (init_log σ).

Definition materialize (p : nat) (v : ParameterObj T) (i : Initializer)
    (σ : State T Rng) : State T Rng :=
  mkState (<[p := set_data (set_deferred_init v None)
                           (draw i (shape v) (rng σ)).1]> (heap σ))
          (next_id σ) (draw i (shape v) (rng σ)).2
          (mkInitCall (name v) i (shape v) :: init_log σ).

(** [for p in params: body(p)] *)
Fixpoint for_params (body : nat → M unit) (params : list nat) : M unit :=
  match params with
  | [] => mret ()
  | p :: rest => _ ← body p; for_params body rest
  end.

(** Modelled from the spec: [ParameterDict.initialize(init, ctx)] of
    [mxnet.gluon], not under src/: every parameter of the collection is
    initialized, in order, with [init] as the default. *)
Definition ParameterDict_initialize (params : list nat) (i : Initializer)
  : M unit :=
  for_params (λ p, Parameter_initialize p None i) params.

(** ** Operators of [mxnet.nd] *)

(** Modelled from the spec: [nd.relu] of the framework, not under src/:
    elementwise [max(x, 0)]. *)
Definition relu (x : NDArray T) : NDArray T :=
  mkNDArray (nd_shape x) ((λ v, tmax v zero) <$> nd_data x).

Definition row (k i : nat) (d : list T) : list T := take k (drop (i * k) d).

Definition dot (u v : list T) : T := foldr add zero (zip_with mul u v).

(** Modelled from the spec: [nd.FullyConnected] of the framework, not
    under src/: the input is flattened to [n] rows, and row [i] of the
    output holds [dot(x[i], weight[j]) + bias[j]] for each of the
    [num_hidden] units [j].  The weight has to be
    [num_hidden x (row length)] and the bias [num_hidden].  A zero
    dimension stands for one that is not known, so an input without
    rows is refused like an input with rows of the wrong length. *)
Definition FullyConnected (x weight bias : NDArray T) (num_hidden : nat)
  : Result (NDArray T) :=
  match nd_shape x with
  | [] => Raise MXNetError
  | n :: rest =>
      let k := prod_shape rest in
      if decide (n = 0) then Raise MXNetError
      else if decide (nd_shape weight = [num_hidden; k]
                      ∧ nd_shape bias = [num_hidden]) then
        Ok (mkNDArray [n; num_hidden]
              (i ← seq 0 n;
               (λ j, add (dot (row k i (nd_data x))
                              (row k j (nd_data weight)))
                         (nth j (nd_data bias) zero)) <$> seq 0 num_hidden))
      else Raise MXNetError
  end.

Definition lift {A} (r : Result A) : M A := λ σ, (r, σ).

(** ** Blocks *)

(** Modelled from the spec: the interface of [gluon.Block], not under
    src/, as far as the notebook uses it: a subclass supplies [forward]
    ("we only have to define the forward pass"); [collect_params]
    gathers the parameters of the block and of its children. *)
Class Block (B : Type) := {
  forward : B → NDArray T → M (NDArray T);
  collect_params : B → list nat
}.

(** Modelled from the spec: [Block.__call__] belongs to [mxnet.gluon],
    which is not under src/.  The notebook says
    "[gluon.Block.__call__(x)] is defined so that [net(data)] behaves
    identically to [net.forward(data)]". *)
Definition __call__ {B} `{Block B} (net : B) (x : NDArray T)
  : M (NDArray T) :=
  forward net x.

(** Modelled from the spec: [Block.initialize(init=Uniform(), ctx)] of
    [mxnet.gluon], not under src/: [collect_params().initialize]. *)
Definition initialize {B} `{Block B} (net : B) (i : Initializer) : M unit :=
  ParameterDict_initialize (collect_params net) i.

(** *** [nn.Dense] *)

(** Modelled from the spec: the activation of a [Dense] layer, not
    under src/.  Only ["relu"] occurs in the notebook; as an activation
    it is the function [nd.relu]. *)
Inductive act_type := act_relu.

Definition Activation (a : act_type) (x : NDArray T) : NDArray T :=
  match a with
  | act_relu => relu x
  end.

Record Dense := mkDense {
  _units : nat;
  act : option act_type;
  weight : nat;
  bias : nat
}.

(** Modelled from the spec: the constructor of [nn.Dense], not under
    src/.  The weight is [units x in_units], with [in_units = 0] when the
    argument is not given, which is how the notebook shows the shapes
    "(128,0), (64, 0), (10, 0)".  The bias is there by default
    ([use_bias=True]), is [units] long, and has the initializer
    ['zeros'] ([bias_initializer='zeros']); the weight has none of its
    own.  Both allow deferred initialization. *)
Definition Dense_init (units : nat) (activation : option act_type)
    (in_units : nat) (prefix : string) : M Dense :=
  w ← new_param (mkParameter (prefix +:+ "weight") [units; in_units]
                    None true None None);
  b ← new_param (mkParameter (prefix +:+ "bias") [units]
                    (Some Zeros) true None None);
  mret (mkDense units activation w b).

(** Modelled from the spec: shape inference ("defers determining a
    layer's input dimensionality until real data is observed") for a
    [Dense] layer, not under src/: the second dimension of the weight is
    the length of a flattened input row.  A known dimension has to agree
    with the inferred one.  From an input without rows (a zero first
    dimension, which stands for one that is not known) no shape can be
    inferred: the framework raises a [ValueError] and the parameters
    stay as they are. *)
Definition Dense_infer_shape (self : Dense) (x : NDArray T) : M unit :=
  match nd_shape x with
  | [] => raise MXNetError
  | n :: rest =>
      if decide (n = 0) then raise ValueError
      else
        v ← get_param (weight self);
        let inferred := [_units self; prod_shape rest] in
        if decide (length (shape v) = 2
                   ∧ Forall2 (λ old new, old = 0 ∨ old = new)
                             (shape v) inferred) then
          set_param (weight self) (set_shape v inferred)
        else raise MXNetError
  end.

(** The arrays of the two parameters. *)
Definition Dense_params (self : Dense) : M (NDArray T * NDArray T) :=
  w ← Parameter_data (weight self);
  b ← Parameter_data (bias self);
  mret (w, b).

(** Modelled from the spec: what a [Dense] layer computes, not under
    src/: [activation(FullyConnected(x, weight, bias))], the activation
    being applied only when one is given.  The notebook presents
    [Dense(128, activation="relu")] and [nd.relu(self.dense0(x))] with
    [Dense(128)] as "the same model". *)
Definition Dense_hybrid_forward (self : Dense) (x w b : NDArray T)
  : Result (NDArray T) :=
  match FullyConnected x w b (_units self) with
  | Ok y => Ok (match act self with
                | Some a => Activation a y
                | None => y
                end)
  | Raise e => Raise e
  end.

(** Modelled from the spec: the forward pass of [nn.Dense], not under
    src/.  When a parameter is still deferred, "the shape will be
    inferred on the fly once the network is provided with some input":
    the shape is inferred from [x], the deferred initializations of the
    layer are finished, and the layer is evaluated. *)
Definition Dense_forward (self : Dense) (x : NDArray T) : M (NDArray T) :=
  '(w, b) ← try_except_deferred (Dense_params self)
              (_ ← Dense_infer_shape self x;
               _ ← for_params Parameter__finish_deferred_init
                     [weight self; bias self];
               Dense_params self);
  lift (Dense_hybrid_forward self x w b).

#[export] Instance Dense_Block : Block Dense := {
  forward := Dense_forward;
  collect_params self := [weight self; bias self]
}.

(** *** The notebook's [MLP] *)

Record MLP := mkMLP {
  dense0 : Dense;
  dense1 : Dense;
  dense2 : Dense
}.

(** [MLP.__init__]: inside [self.name_scope()] the three layers get the
    prefix of the block followed by their own. *)
Definition MLP_init (prefix : string) : M MLP :=
  d0 ← Dense_init 128 None 0 (prefix +:+ "dense0_");
  d1 ← Dense_init 64 None 0 (prefix +:+ "dense1_");
  d2 ← Dense_init 10 None 0 (prefix +:+ "dense2_");
  mret (mkMLP d0 d1 d2).

(** [MLP.forward] *)
Definition MLP_forward (self : MLP) (x : NDArray T) : M (NDArray T) :=
  x ← relu <$> __call__ (dense0 self) x;
  x ← relu <$> __call__ (dense1 self) x;
  __call__ (dense2 self) x.

#[export] Instance MLP_Block : Block MLP := {
  forward := MLP_forward;
  collect_params self :=
    collect_params (dense0 self) ++ collect_params (dense1 self)
      ++ collect_params (dense2 self)
}.

(** *** [nn.Sequential] *)

(** Modelled from the spec: the container [nn.Sequential], not under
    src/, from the notebook: "Sequential itself subclasses [Block] and
    maintains a list of [_children].  Then, every time we call
    [net1.add(...)] our net simple registers a new child.  We can
    actually pass in arbitrary [Block], even layers that we write
    ourselves."  A child is a block of any class, or a [Sequential]
    again, which is given by its own children. *)
#[warnings="-register-all"] Inductive child :=
| Child (B : Type) (HB : Block B) (b : B)
| Nested (children : list child).

(** The loop of [Sequential.forward]:
    [for block in self._children: x = block(x)], with the call of a
    block left open. *)
Definition for_blocks {C : Type} (call : C → NDArray T → M (NDArray T))
  : list C → NDArray T → M (NDArray T) :=
  fix loop (children : list C) (x : NDArray T) : M (NDArray T) :=
    match children with
    | [] => mret x
    | block :: rest => x ← call block x; loop rest x
    end.

(** [block(x)] for a child. *)
Fixpoint child_call (c : child) (x : NDArray T) : M (NDArray T) :=
  match c with
  | Child _ _ b => __call__ b x
  | Nested children => for_blocks child_call children x
  end.

Fixpoint child_params (c : child) : list nat :=
  match c with
  | Child _ _ b => collect_params b
  | Nested children => concat (map child_params children)
  end.

Record Sequential := mkSequential {
  _children : list child
}.

(** [self.register_child(block)]: the new child comes after those
    registered so far. *)
Definition register_child (self : Sequential) (block : child) : Sequential :=
  mkSequential (_children self ++ [block]).

(** [net.add(block)] registers the block as a child: a block of another
    class as it is, a [Sequential] by its children. *)
Definition Sequential_add {B} `{Block B} (self : Sequential) (block : B)
  : Sequential :=
  register_child self (Child B _ block).

Definition Sequential_add_Sequential (self block : Sequential) : Sequential :=
  register_child self (Nested (_children block)).

Definition for_children : list child → NDArray T → M (NDArray T) :=
  for_blocks child_call.

(** [Sequential.forward], as the notebook quotes it. *)
Definition Sequential_forward (self : Sequential) (x : NDArray T)
  : M (NDArray T) :=
  for_children (_children self) x.

(** [bn(...(b2(b1(x)))...)], read from the outside in: the children are
    given last first. *)
Fixpoint nested_calls (last_first : list child) (x : NDArray T)
  : M (NDArray T) :=
  match last_first with
  | [] => mret x
  | bn :: before => nested_calls before x ≫= child_call bn
  end.

#[export] Instance Sequential_Block : Block Sequential := {
  forward := Sequential_forward;
  collect_params self := concat (map child_params (_children self))
}.

(** ** The networks of the notebook *)

(** [net1]: three [Dense] layers without [in_units], added inside
    [net1.name_scope()]. *)
Definition net1_cell (prefix : string) : M Sequential :=
  let net1 := mkSequential [] in
  d ← Dense_init 128 (Some act_relu) 0 (prefix +:+ "dense0_");
  let net1 := Sequential_add net1 d in
  d ← Dense_init 64 (Some act_relu) 0 (prefix +:+ "dense1_");
  let net1 := Sequential_add net1 d in
  d ← Dense_init 10 None 0 (prefix +:+ "dense2_");
  let net1 := Sequential_add net1 d in
  mret net1.

(** The second [net2]: the same layers with [in_units] given. *)
Definition net2_cell (prefix : string) : M Sequential :=
  let net2 := mkSequential [] in
  d ← Dense_init 128 (Some act_relu) 784 (prefix +:+ "dense0_");
  let net2 := Sequential_add net2 d in
  d ← Dense_init 64 (Some act_relu) 128 (prefix +:+ "dense1_");
  let net2 := Sequential_add net2 d in
  d ← Dense_init 10 None 64 (prefix +:+ "dense2_");
  let net2 := Sequential_add net2 d in
  mret net2.

(** The cell of [net1] for any layers: [net = gluon.nn.Sequential()]
    and, inside [net.name_scope()], one
    [net.add(gluon.nn.Dense(units, activation=a))] for each [(units, a)]
    of the list, none with [in_units].  The layers of a name scope are
    numbered from 0: [dense0_], [dense1_], ... *)
Definition layer_prefix (j : nat) : string := "dense" +:+ pretty j +:+ "_".

Fixpoint add_Dense_layers (prefix : string) (j : nat)
    (layers : list (nat * option act_type)) (net : Sequential)
  : M Sequential :=
  match layers with
  | [] => mret net
  | (units, activation) :: layers =>
      d ← Dense_init units activation 0 (prefix +:+ layer_prefix j);
      add_Dense_layers prefix (S j) layers (Sequential_add net d)
  end.

Definition Sequential_cell (prefix : string)
    (layers : list (nat * option act_type)) : M Sequential :=
  add_Dense_layers prefix 0 layers (mkSequential []).

End Framework.

Arguments Block T Rng B : clear implicits.
Arguments child T Rng : clear implicits.
Arguments Sequential T Rng : clear implicits.

(** ** What a state holds for a parameter *)

Section Holds.
Context {T Rng : Type}.

(** The parameter is materialized, with this shape and these elements. *)
Definition materialized (σ : State T Rng) (p : nat) (sh : list nat)
    (d : list T) : Prop :=
  ∃ v, heap σ !! p = Some v ∧ shape v = sh ∧ _data v = Some d.

(** The parameter has no array yet; [initialize] has noted [i] for it. *)
Definition deferred (σ : State T Rng) (p : nat) (sh : list nat)
    (i : Initializer) : Prop :=
  ∃ v, heap σ !! p = Some v ∧ shape v = sh ∧ _data v = None
       ∧ _deferred_init v = Some i.

(** Two collections of parameters hold equal values, one by one. *)
Definition same_values (σ1 σ2 : State T Rng) (ps1 ps2 : list nat) : Prop :=
  Forall2 (λ p1 p2, ∃ sh d, materialized σ1 p1 sh d ∧ materialized σ2 p2 sh d)
          ps1 ps2.

End Holds.

(** ** An instance to run the model on: integers for the elements, and a
    counter for the generator *)

#[export] Instance Z_Scalar : Scalar Z := {|
  zero := 0%Z;
  add := Z.add;
  mul := Z.mul;
  tmax := Z.max
|}.

(** [n] numbers between -2 and 2, starting from [z]. *)
Fixpoint ramp (n : nat) (z : Z) : list Z :=
  match n with
  | 0 => []
  | S n => (z `mod` 5 - 2)%Z :: ramp n (z + 1)%Z
  end.

#[export] Instance Z_Sampler : Sampler Z Z := {|
  sample _ sh seed := (ramp (prod_shape sh) seed, (seed + 1)%Z)
|}.

(** A kernel that has just started. *)
Definition fresh : State Z Z := mkState ∅ 0 0%Z [].

(** A batch of one 2x2 picture. *)
Definition picture : NDArray Z := mkNDArray [1; 2; 2] [1; -2; 3; 4]%Z.

(** [mx.init.Xavier(magnitude=2.24)] *)
Definition xavier : Initializer := Xavier (Qmake 224 100).

(** [net1] built and initialized, as in the notebook. *)
Definition net1_initialized : M Z Z (Sequential Z Z) :=
  net1 ← net1_cell "sequential0_";
  _ ← ParameterDict_initialize (collect_params net1) xavier;
  mret net1.

(** [net2 = MLP()] followed by [net2.initialize(ctx=ctx)]. *)
Definition MLP_initialized : M Z Z MLP :=
  net2 ← MLP_init "mlp0_";
  _ ← initialize net2 Uniform;
  mret net2.

(** A first forward pass on [picture] after that. *)
Definition net1_used : M Z Z (Sequential Z Z) :=
  net1 ← net1_initialized;
  _ ← __call__ net1 picture;
  mret net1.

Definition MLP_used : M Z Z MLP :=
  net2 ← MLP_initialized;
  _ ← __call__ net2 picture;
  mret net2.

(** The blocks these cells build in a kernel that has just started, the
    states after [initialize], and the states after the first forward
    pass. *)
Definition net1_value : Sequential Z Z :=
  mkSequential
    [Child Dense _ (mkDense 128 (Some act_relu) 0 1);
     Child Dense _ (mkDense 64 (Some act_relu) 2 3);
     Child Dense _ (mkDense 10 None 4 5)].

Definition MLP_value : MLP :=
  mkMLP (mkDense 128 None 0 1) (mkDense 64 None 2 3) (mkDense 10 None 4 5).

Definition net1_noted_state : State Z Z :=
  Eval vm_compute in (net1_initialized fresh).2.

Definition MLP_noted_state : State Z Z :=
  Eval vm_compute in (MLP_initialized fresh).2.

Definition net1_state : State Z Z :=
  Eval vm_compute in (net1_used fresh).2.

Definition MLP_state : State Z Z :=
  Eval vm_compute in (MLP_used fresh).2.

(** An [MLP] built after [net1] in the same kernel, and two more inputs:
    two rows of length 4, and one row of length 3. *)
Definition MLP_second : MLP :=
  mkMLP (mkDense 128 None 6 7) (mkDense 64 None 8 9) (mkDense 10 None 10 11).

Definition two_rows : NDArray Z :=
  mkNDArray [2; 4] [1; 0; -1; 2; 3; -2; 0; 1]%Z.

Definition short_row : NDArray Z := mkNDArray [1; 3] [1; 2; 3]%Z.

(** The kernel after each network has been built, before [initialize]. *)
Definition net1_built_state : State Z Z :=
  Eval vm_compute in (net1_cell "sequential0_" fresh).2.

Definition both_built_state : State Z Z :=
  Eval vm_compute in (MLP_init "mlp0_" net1_built_state).2.

Definition MLP_built_state : State Z Z :=
  Eval vm_compute in (MLP_init "mlp0_" fresh).2.

(** ** Footprints, and networks that are ready *)

Section Footprint.
Context {T Rng : Type}.

(** From [σ] to [σ'] no parameter has been created, and the parameters
    outside [ps] are as they were. *)
Definition only_touches (ps : list nat) (σ σ' : State T Rng) : Prop :=
  next_id σ' = next_id σ ∧ ∀ p, p ∉ ps → heap σ' !! p = heap σ !! p.

(** Whatever it returns or raises, [m] touches only [ps]. *)
Definition touches {A : Type} (ps : list nat) (m : M T Rng A) : Prop :=
  ∀ σ r σ', m σ = (r, σ') → only_touches ps σ σ'.

(** The array holds as many elements as its shape says. *)
Definition well_formed (x : NDArray T) : Prop :=
  length (nd_data x) = prod_shape (nd_shape x).

(** Both parameters of the layer are materialized, the weight for input
    rows of length [k]. *)
Definition Dense_ready (d : Dense) (k : nat) (σ : State T Rng) : Prop :=
  ∃ dw db, materialized σ (weight d) [_units d; k] dw
           ∧ materialized σ (bias d) [_units d] db.

(** The three layers are ready, each for the output of the one before. *)
Definition layers_ready (d0 d1 d2 : Dense) (k : nat) (σ : State T Rng)
  : Prop :=
  Dense_ready d0 k σ ∧ Dense_ready d1 (_units d0) σ
  ∧ Dense_ready d2 (_units d1) σ.

Definition MLP_ready (self : MLP) (k : nat) (σ : State T Rng) : Prop :=
  layers_ready (dense0 self) (dense1 self) (dense2 self) k σ.

(** The same for any number of layers, the first for rows of length
    [k]. *)
Fixpoint chain_ready (σ : State T Rng) (k : nat) (ds : list Dense) : Prop :=
  match ds with
  | [] => True
  | d :: ds => Dense_ready d k σ ∧ chain_ready σ (_units d) ds
  end.

(** The layer is as [Dense(units)] creates it, without [in_units]:
    nothing has been initialized or noted. *)
Definition Dense_created (σ : State T Rng) (d : Dense) : Prop :=
  ∃ nw nb,
    heap σ !! weight d
    = Some (mkParameter nw [_units d; 0] None true None None)
    ∧ heap σ !! bias d
      = Some (mkParameter nb [_units d] (Some Zeros) true None None).

(** On top of [before], the log holds one call of the initializer [i]
    for each parameter of [ps], made in the order of [ps] (the log has
    the newest first), each on the name of the parameter and on the
    shape that it has in [σ]. *)
Definition logged (σ : State T Rng) (i : Initializer) (ps : list nat)
    (before : list InitCall) : Prop :=
  ∃ calls,
    Forall2 (λ p c, ∃ v, heap σ !! p = Some v
                         ∧ c = mkInitCall (name v) i (shape v)) ps calls
    ∧ init_log σ = reverse calls ++ before.

End Footprint.

Section Noted.
Context {T Rng : Type} `{Scalar T}.

(** The layer after [initialize(i)]: [i] is noted for the weight, whose
    input size is still not known, and the bias holds zeros. *)
Definition Dense_noted (i : Initializer) (σ : State T Rng) (d : Dense)
  : Prop :=
  ∃ nw nb,
    heap σ !! weight d
    = Some (mkParameter nw [_units d; 0] None true None (Some i))
    ∧ heap σ !! bias d
      = Some (mkParameter nb [_units d] (Some Zeros) true
                (Some (replicate (_units d) zero)) None).

End Noted.

(** * Properties *)

Section Theory.
Context {T Rng : Type} `{Scalar T} `{Sampler T Rng}.

Local Abbreviation M := (M T Rng).
Local Abbreviation child := (child T Rng).
Local Abbreviation Sequential := (Sequential T Rng).
Implicit Types (σ : State T Rng) (x y : NDArray T).

(** ** The monad *)

Lemma bind_Ok {A B} (m : M A) (f : A → M B) σ a σ1 :
  m σ = (Ok a, σ1) → (m ≫= f) σ = f a σ1.
Proof. intros Hm. unfold mbind, M_bind. by rewrite Hm. Qed.

Lemma bind_Raise {A B} (m : M A) (f : A → M B) σ e σ1 :
  m σ = (Raise e, σ1) → (m ≫= f) σ = (Raise e, σ1).
Proof. intros Hm. unfold mbind, M_bind. by rewrite Hm. Qed.

Lemma bind_Ok_inv {A B} (m : M A) (f : A → M B) σ b σ' :
  (m ≫= f) σ = (Ok b, σ') →
  ∃ a σ1, m σ = (Ok a, σ1) ∧ f a σ1 = (Ok b, σ').
Proof.
  unfold mbind, M_bind. destruct (m σ) as [[a|e] σ1]; [eauto | discriminate].
Qed.

Lemma bind_assoc {A B C} (m : M A) (f : A → M B) (g : B → M C) σ :
  ((m ≫= f) ≫= g) σ = (m ≫= λ a, f a ≫= g) σ.
Proof. unfold mbind, M_bind. by destruct (m σ) as [[a|e] σ1]. Qed.

Lemma bind_ret_r {A} (m : M A) σ : (m ≫= mret) σ = m σ.
Proof. unfold mbind, M_bind, mret, M_ret. by destruct (m σ) as [[a|e] σ1]. Qed.

(** ** [MLP.forward] *)

Lemma MLP_forward_unfold (self : MLP) x σ :
  MLP_forward self x σ =
    match __call__ (dense0 self) x σ with
    | (Raise e, σ1) => (Raise e, σ1)
    | (Ok y0, σ1) =>
        match __call__ (dense1 self) (relu y0) σ1 with
        | (Raise e, σ2) => (Raise e, σ2)
        | (Ok y1, σ2) => __call__ (dense2 self) (relu y1) σ2
        end
    end.
Proof.
  unfold MLP_forward, mbind, M_bind, fmap, M_fmap.
  destruct (__call__ (dense0 self) x σ) as [[y0|e] σ1]; [|done].
  by destruct (__call__ (dense1 self) (relu y0) σ1) as [[y1|e] σ2].
Qed.

(** C4: [MLP.forward] returns [dense2(relu(dense1(relu(dense0(x)))))]:
    the three layers are called in this order, each on the [relu] of the
    previous result, the state is passed from one call to the next, and
    the result of [dense2] is returned as it is. *)
Theorem MLP_forward_is_composition (self : MLP) (x : NDArray T) σ :
  forward self x σ =
    match __call__ (dense0 self) x σ with
    | (Raise e, σ1) => (Raise e, σ1)
    | (Ok y0, σ1) =>
        match __call__ (dense1 self) (relu y0) σ1 with
        | (Raise e, σ2) => (Raise e, σ2)
        | (Ok y1, σ2) => __call__ (dense2 self) (relu y1) σ2
        end
    end.
Proof.
  cbn [forward MLP_Block]. unfold MLP_forward.
  destruct (__call__ (dense0 self) x σ) as [[y0|e] σ1] eqn:E0.
  - rewrite (bind_Ok _ _ σ (relu y0) σ1)
      by (unfold fmap, M_fmap; by rewrite E0).
    destruct (__call__ (dense1 self) (relu y0) σ1) as [[y1|e] σ2] eqn:E1.
    + by rewrite (bind_Ok _ _ σ1 (relu y1) σ2)
        by (unfold fmap, M_fmap; by rewrite E1).
    + by rewrite (bind_Raise _ _ σ1 e σ2)
        by (unfold fmap, M_fmap; by rewrite E1).
  - by rewrite (bind_Raise _ _ σ e σ1)
      by (unfold fmap, M_fmap; by rewrite E0).
Qed.

(** C5: [MLP.__init__] raises nothing, and an exception leaves
    [MLP.forward] exactly when one of the three calls of a layer raised
    it: it is passed on unchanged, with the state that call left, and no
    exception of a layer is caught. *)
Theorem MLP_raises_only_from_layers (self : MLP) (x : NDArray T) σ e σ' prefix :
  (∃ net σ1, MLP_init prefix σ = (Ok net, σ1))
  ∧ (forward self x σ = (Raise e, σ') ↔
       __call__ (dense0 self) x σ = (Raise e, σ')
       ∨ (∃ y0 σ1, __call__ (dense0 self) x σ = (Ok y0, σ1)
            ∧ __call__ (dense1 self) (relu y0) σ1 = (Raise e, σ'))
       ∨ (∃ y0 σ1 y1 σ2, __call__ (dense0 self) x σ = (Ok y0, σ1)
            ∧ __call__ (dense1 self) (relu y0) σ1 = (Ok y1, σ2)
            ∧ __call__ (dense2 self) (relu y1) σ2 = (Raise e, σ'))).
Proof.
  split; [by eexists _, _|].
  cbn [forward MLP_Block]. rewrite MLP_forward_unfold.
  destruct (__call__ (dense0 self) x σ) as [[y0|e0] σ1] eqn:E0.
  - destruct (__call__ (dense1 self) (relu y0) σ1) as [[y1|e1] σ2] eqn:E1.
    + split.
      * intros Hr. right; right. exists y0, σ1, y1, σ2. by rewrite E1, Hr.
      * intros [?|[(?&?&?&?)|(?&?&?&?&?&?&?)]]; simplify_eq; congruence.
    + split.
      * intros Hr. right; left. exists y0, σ1. by rewrite E1, Hr.
      * intros [?|[(?&?&?&?)|(?&?&?&?&?&?&?)]]; simplify_eq; congruence.
  - split.
    + intros Hr. left. congruence.
    + intros [?|[(?&?&?&?)|(?&?&?&?&?&?&?)]]; simplify_eq; congruence.
Qed.

(** ** [Block.__call__] *)

(** C8: calling a block is calling its [forward]: the same result and
    the same state after it, for every block and every input. *)
Theorem call_is_forward {B : Type} {HB : Block T Rng B} (net : B) (x : NDArray T) σ :
  __call__ net x σ = forward net x σ.
Proof. reflexivity. Qed.

(** ** [Sequential.forward] *)

Lemma for_children_app (bs cs : list child) x σ :
  for_children (bs ++ cs) x σ = (for_children bs x ≫= for_children cs) σ.
Proof.
  revert x σ. induction bs as [|b bs IH]; intros x σ; [done|].
  unfold for_children in *. cbn [for_blocks app]. rewrite bind_assoc.
  destruct (child_call b x σ) as [[y|e] σ1] eqn:E.
  - rewrite !(bind_Ok _ _ _ _ _ E). apply IH.
  - by rewrite !(bind_Raise _ _ _ _ _ E).
Qed.

Lemma for_children_nested (bs : list child) x σ :
  for_children bs x σ = nested_calls (reverse bs) x σ.
Proof.
  revert x σ. induction bs as [|b bs IH] using rev_ind; intros x σ; [done|].
  rewrite reverse_snoc, for_children_app. cbn [nested_calls].
  destruct (nested_calls (reverse bs) x σ) as [[y|e] σ1] eqn:E.
  - rewrite (bind_Ok _ _ _ _ _ E). rewrite <- IH in E.
    rewrite (bind_Ok _ _ _ _ _ E). unfold for_children. cbn [for_blocks].
    apply bind_ret_r.
  - rewrite (bind_Raise _ _ _ _ _ E). rewrite <- IH in E.
    by rewrite (bind_Raise _ _ _ _ _ E).
Qed.

(** A [Sequential] registered as a child is called as a [Sequential]. *)
Lemma Sequential_nested (s0 s : Sequential) x σ :
  child_call (Nested (_children s)) x σ = forward s x σ
  ∧ _children (Sequential_add_Sequential s0 s)
    = _children s0 ++ [Nested (_children s)].
Proof. done. Qed.

(** C7: for the children [b1, ..., bn] registered by successive [add]
    calls ([add] is [register_child]), [forward] is
    [bn(...(b2(b1(x)))...)]: each child is called on the output of the
    one before it, in the order of registration, and what the last one
    returns is returned. *)
Theorem Sequential_forward_in_order (bs : list child) (x : NDArray T) σ :
  let s := foldl register_child (mkSequential []) bs in
  _children s = bs
  ∧ forward s x σ = nested_calls (reverse bs) x σ.
Proof.
  cbn zeta.
  assert (Hc : ∀ s0, _children (foldl register_child s0 bs)
                     = _children s0 ++ bs).
  { induction bs as [|b bs IH]; intros s0; cbn [foldl].
    - by rewrite app_nil_r.
    - rewrite IH. cbn. by rewrite <- app_assoc. }
  split; [apply Hc|].
  cbn [forward Sequential_Block]. unfold Sequential_forward.
  rewrite Hc. cbn [_children app]. apply for_children_nested.
Qed.

(** ** [Dense] on materialized parameters *)

Lemma Parameter_data_materialized σ p sh d :
  materialized σ p sh d → Parameter_data p σ = (Ok (mkNDArray sh d), σ).
Proof.
  intros (v & Hv & <- & Hd).
  unfold Parameter_data, mbind, M_bind, get_param. by rewrite Hv, Hd.
Qed.

Lemma Dense_params_materialized (self : Dense) σ sw dw sb db :
  materialized σ (weight self) sw dw → materialized σ (bias self) sb db →
  Dense_params self σ = (Ok (mkNDArray sw dw, mkNDArray sb db), σ).
Proof.
  intros Hw Hb. unfold Dense_params.
  rewrite (bind_Ok _ _ _ _ _ (Parameter_data_materialized _ _ _ _ Hw)).
  by rewrite (bind_Ok _ _ _ _ _ (Parameter_data_materialized _ _ _ _ Hb)).
Qed.

(** With both parameters materialized, the layer is a function of its
    input and their values, and the state stays as it is. *)
Lemma Dense_forward_materialized (self : Dense) x σ sw dw sb db :
  materialized σ (weight self) sw dw → materialized σ (bias self) sb db →
  Dense_forward self x σ
  = (Dense_hybrid_forward self x (mkNDArray sw dw) (mkNDArray sb db), σ).
Proof.
  intros Hw Hb. unfold Dense_forward.
  rewrite (bind_Ok _ _ σ (mkNDArray sw dw, mkNDArray sb db) σ); [done|].
  unfold try_except_deferred.
  by rewrite (Dense_params_materialized _ _ _ _ _ _ Hw Hb).
Qed.

Lemma relu_shape (x : NDArray T) : nd_shape (relu x) = nd_shape x.
Proof. reflexivity. Qed.

Lemma FullyConnected_shape (x w b y : NDArray T) u :
  FullyConnected x w b u = Ok y →
  ∃ n rest, nd_shape x = n :: rest ∧ nd_shape y = [n; u].
Proof.
  unfold FullyConnected. destruct (nd_shape x) as [|n rest]; [done|].
  case_decide; [done|]. case_decide; [|done]. intros [= <-].
  by exists n, rest.
Qed.

Lemma Dense_hybrid_forward_shape (self : Dense) (x w b y : NDArray T) :
  Dense_hybrid_forward self x w b = Ok y →
  ∃ n rest, nd_shape x = n :: rest ∧ nd_shape y = [n; _units self].
Proof.
  unfold Dense_hybrid_forward.
  destruct (FullyConnected x w b (_units self)) as [z|e] eqn:E; [|done].
  intros [= <-]. destruct (FullyConnected_shape _ _ _ _ _ E) as (n & rest & Hx & Hz).
  exists n, rest. split; [done|]. by destruct (act self) as [[]|].
Qed.

(** Whatever the state of its parameters, a layer that returns returns
    one row of [units] elements per row of its input. *)
Lemma Dense_forward_shape (self : Dense) x σ y σ' :
  Dense_forward self x σ = (Ok y, σ') →
  ∃ n rest, nd_shape x = n :: rest ∧ nd_shape y = [n; _units self].
Proof.
  unfold Dense_forward. intros Hf.
  apply bind_Ok_inv in Hf as ([w b] & σ1 & _ & Hf).
  unfold lift in Hf. injection Hf as Hf _.
  by apply Dense_hybrid_forward_shape in Hf.
Qed.

(** What the constructors return. *)
Lemma MLP_init_eq prefix σ :
  ∃ σ', MLP_init (T:=T) prefix σ
        = (Ok (mkMLP (mkDense 128 None (next_id σ) (1 + next_id σ))
                     (mkDense 64 None (2 + next_id σ) (3 + next_id σ))
                     (mkDense 10 None (4 + next_id σ) (5 + next_id σ))), σ').
Proof. eexists. reflexivity. Qed.

Lemma net1_cell_eq prefix σ :
  ∃ σ', net1_cell (T:=T) prefix σ
        = (Ok (mkSequential
                 [Child Dense _ (mkDense 128 (Some act_relu) (next_id σ) (1 + next_id σ));
                  Child Dense _ (mkDense 64 (Some act_relu) (2 + next_id σ) (3 + next_id σ));
                  Child Dense _ (mkDense 10 None (4 + next_id σ) (5 + next_id σ))]), σ').
Proof.
  eexists. unfold net1_cell, net2_cell, Dense_init, new_param, Sequential_add,
    register_child.
  unfold mbind, M_bind, mret, M_ret. cbn. reflexivity.
Qed.

Lemma net2_cell_eq prefix σ :
  ∃ σ', net2_cell (T:=T) prefix σ
        = (Ok (mkSequential
                 [Child Dense _ (mkDense 128 (Some act_relu) (next_id σ) (1 + next_id σ));
                  Child Dense _ (mkDense 64 (Some act_relu) (2 + next_id σ) (3 + next_id σ));
                  Child Dense _ (mkDense 10 None (4 + next_id σ) (5 + next_id σ))]), σ').
Proof.
  eexists. unfold net1_cell, net2_cell, Dense_init, new_param, Sequential_add,
    register_child.
  unfold mbind, M_bind, mret, M_ret. cbn. reflexivity.
Qed.

(** Three layers in a row. *)
Lemma three_layers_shape (c0 c1 c2 : Dense) (f : NDArray T → NDArray T)
    x σ y σ' n rest :
  (∀ z, nd_shape (f z) = nd_shape z) →
  nd_shape x = n :: rest →
  match __call__ c0 x σ with
  | (Raise e, σ1) => (Raise e, σ1)
  | (Ok y0, σ1) =>
      match __call__ c1 (f y0) σ1 with
      | (Raise e, σ2) => (Raise e, σ2)
      | (Ok y1, σ2) => __call__ c2 (f y1) σ2
      end
  end = (Ok y, σ') →
  nd_shape y = [n; _units c2].
Proof.
  intros Hf Hx Hr.
  destruct (__call__ c0 x σ) as [[y0|?] σ1] eqn:E0; [|done].
  destruct (__call__ c1 (f y0) σ1) as [[y1|?] σ2] eqn:E1; [|done].
  apply Dense_forward_shape in E0 as (n0 & r0 & Hx0 & Hy0).
  apply Dense_forward_shape in E1 as (n1 & r1 & Hx1 & Hy1).
  apply Dense_forward_shape in Hr as (n2 & r2 & Hx2 & Hy2).
  rewrite Hf in Hx1, Hx2. congruence.
Qed.

(** The loop of [Sequential.forward] on three [Dense] children. *)
Lemma for_children_three (c0 c1 c2 : Dense) x σ :
  for_children [Child Dense _ c0; Child Dense _ c1; Child Dense _ c2] x σ =
    match __call__ c0 x σ with
    | (Raise e, σ1) => (Raise e, σ1)
    | (Ok y0, σ1) =>
        match __call__ c1 y0 σ1 with
        | (Raise e, σ2) => (Raise e, σ2)
        | (Ok y1, σ2) => __call__ c2 y1 σ2
        end
    end.
Proof.
  unfold for_children. cbn [for_blocks child_call]. unfold mbind, M_bind.
  destruct (__call__ c0 x σ) as [[y0|?] σ1]; [|done].
  destruct (__call__ c1 y0 σ1) as [[y1|?] σ2]; [|done].
  by destruct (__call__ c2 y1 σ2) as [[y2|?] σ3].
Qed.

(** C9: the output has one row per input row and 10 columns, the units
    of the last [Dense] layer: whenever the [MLP], [net1] or the
    [Sequential] with explicit input sizes returns on an input whose
    first dimension is [n], what it returns has shape [n x 10]. *)
Theorem output_shape_n_by_10 prefix σ0 σ0' (x y : NDArray T) σ σ' n rest :
  nd_shape x = n :: rest →
  (∀ net : MLP, MLP_init prefix σ0 = (Ok net, σ0') →
     __call__ net x σ = (Ok y, σ') → nd_shape y = [n; 10])
  ∧ (∀ net : Sequential, net1_cell prefix σ0 = (Ok net, σ0') →
     __call__ net x σ = (Ok y, σ') → nd_shape y = [n; 10])
  ∧ (∀ net : Sequential, net2_cell prefix σ0 = (Ok net, σ0') →
     __call__ net x σ = (Ok y, σ') → nd_shape y = [n; 10]).
Proof.
  intros Hx. split_and!; intros net Hnet Hy.
  - destruct (MLP_init_eq prefix σ0) as (? & E). rewrite E in Hnet.
    injection Hnet as <- _.
    unfold __call__ in Hy. cbn [forward MLP_Block] in Hy.
    rewrite MLP_forward_unfold in Hy.
    exact (three_layers_shape _ _ _ relu _ _ _ _ _ _ relu_shape Hx Hy).
  - destruct (net1_cell_eq prefix σ0) as (? & E). rewrite E in Hnet.
    injection Hnet as <- _.
    unfold __call__ in Hy. cbn [forward Sequential_Block] in Hy.
    unfold Sequential_forward in Hy. cbn [_children] in Hy.
    rewrite for_children_three in Hy.
    exact (three_layers_shape _ _ _ id _ _ _ _ _ _ (λ _, eq_refl) Hx Hy).
  - destruct (net2_cell_eq prefix σ0) as (? & E). rewrite E in Hnet.
    injection Hnet as <- _.
    unfold __call__ in Hy. cbn [forward Sequential_Block] in Hy.
    unfold Sequential_forward in Hy. cbn [_children] in Hy.
    rewrite for_children_three in Hy.
    exact (three_layers_shape _ _ _ id _ _ _ _ _ _ (λ _, eq_refl) Hx Hy).
Qed.

(** ** The two constructions of the network *)

Ltac dense_materialized σ :=
  match goal with
  | |- context [Dense_forward ?d ?x σ] =>
      erewrite (Dense_forward_materialized d x σ) by eassumption
  end.

(** C1: [net1], the [Sequential] of [Dense(128, relu)], [Dense(64, relu)]
    and [Dense(10)], and an [MLP] compute the same function when they
    hold equal parameter values: on every input both return the same
    array, or raise the same exception, and neither changes its state. *)
Theorem net1_MLP_same_function prefix1 prefix2
    (σa σa' σb σb' : State T Rng) (net1 : Sequential) (net2 : MLP) σ1 σ2 x :
  net1_cell prefix1 σa = (Ok net1, σa') →
  MLP_init prefix2 σb = (Ok net2, σb') →
  same_values σ1 σ2 (collect_params net1) (collect_params net2) →
  ∃ r, __call__ net1 x σ1 = (r, σ1) ∧ __call__ net2 x σ2 = (r, σ2).
Proof.
  intros Hn1 Hn2 Hv.
  destruct (net1_cell_eq prefix1 σa) as (? & E1). rewrite E1 in Hn1.
  injection Hn1 as <- _.
  destruct (MLP_init_eq prefix2 σb) as (? & E2). rewrite E2 in Hn2.
  injection Hn2 as <- _.
  unfold same_values in Hv. cbn in Hv.
  repeat match type of Hv with
         | Forall2 _ (_ :: _) (_ :: _) =>
             apply Forall2_cons in Hv as [(? & ? & ? & ?) Hv]
         end.
  clear Hv. unfold __call__.
  cbn [forward Sequential_Block MLP_Block]. unfold Sequential_forward.
  cbn [_children]. rewrite for_children_three, MLP_forward_unfold.
  unfold __call__. cbn [forward Dense_Block dense0 dense1 dense2].
  dense_materialized σ1. dense_materialized σ2.
  unfold Dense_hybrid_forward at 1 2. cbn [_units act Activation].
  destruct (FullyConnected x _ _ 128) as [y0|e]; [|by eexists].
  dense_materialized σ1. dense_materialized σ2.
  unfold Dense_hybrid_forward at 1 2. cbn [_units act Activation].
  destruct (FullyConnected (relu y0) _ _ 64) as [y1|e]; [|by eexists].
  dense_materialized σ1. dense_materialized σ2.
  unfold Dense_hybrid_forward. cbn [_units act]. by eexists.
Qed.

(** ** [MLP.forward] and the state *)

(** C6, as amended: on a network whose parameters are all materialized,
    [MLP.forward] leaves the whole state as it is, the parameters of the
    network among it, and what it returns depends only on [x] and on the
    values of the parameters: in any other state that holds the same
    values it returns the same.  (The layers of the block are fields of
    the value [self], and the global names of the notebook are not
    within reach of [forward]: the state is all it can change.) *)
Theorem MLP_forward_frame (self : MLP) σ1 σ2 x :
  same_values σ1 σ2 (collect_params self) (collect_params self) →
  ∃ r, forward self x σ1 = (r, σ1) ∧ forward self x σ2 = (r, σ2).
Proof.
  intros Hv. unfold same_values in Hv. cbn in Hv.
  repeat match type of Hv with
         | Forall2 _ (_ :: _) (_ :: _) =>
             apply Forall2_cons in Hv as [(? & ? & ? & ?) Hv]
         end.
  clear Hv. cbn [forward MLP_Block]. rewrite !MLP_forward_unfold.
  unfold __call__. cbn [forward Dense_Block].
  dense_materialized σ1. dense_materialized σ2.
  destruct (Dense_hybrid_forward (dense0 self) x _ _) as [y0|e]; [|by eexists].
  dense_materialized σ1. dense_materialized σ2.
  destruct (Dense_hybrid_forward (dense1 self) (relu y0) _ _) as [y1|e];
    [|by eexists].
  dense_materialized σ1. dense_materialized σ2. by eexists.
Qed.

(** ** Initialization *)

Lemma prod_shape_unknown u : prod_shape [u; 0] = 0.
Proof. unfold prod_shape. cbn [foldr]. lia. Qed.

Lemma prod_shape_known sh : Forall (λ d, d ≠ 0) sh → prod_shape sh ≠ 0.
Proof.
  unfold prod_shape. induction 1 as [|d sh Hd _ IH]; cbn [foldr]; [done|].
  by apply Nat.neq_mul_0.
Qed.

Lemma get_param_Some σ p v : heap σ !! p = Some v → get_param p σ = (Ok v, σ).
Proof. intros Hv. unfold get_param. by rewrite Hv. Qed.

Lemma finish_deferred_init_noted σ p v i :
  heap σ !! p = Some v → _deferred_init v = Some i →
  prod_shape (shape v) ≠ 0 →
  Parameter__finish_deferred_init p σ = (Ok (), materialize p v i σ).
Proof.
  intros Hv Hi Hsh. unfold Parameter__finish_deferred_init.
  rewrite (bind_Ok _ _ _ _ _ (get_param_Some _ _ _ Hv)). rewrite Hi.
  unfold mbind, M_bind, set_param, run_initializer. cbn [heap next_id rng init_log].
  cbn [shape set_deferred_init]. rewrite decide_False by done.
  cbn [heap next_id rng init_log name set_deferred_init].
  unfold materialize. by rewrite insert_insert_eq.
Qed.

Lemma finish_deferred_init_none σ p v :
  heap σ !! p = Some v → _deferred_init v = None →
  Parameter__finish_deferred_init p σ = (Ok (), σ).
Proof.
  intros Hv Hi. unfold Parameter__finish_deferred_init.
  rewrite (bind_Ok _ _ _ _ _ (get_param_Some _ _ _ Hv)). by rewrite Hi.
Qed.

Lemma initialize_unknown_shape σ p v i :
  heap σ !! p = Some v → prod_shape (shape v) = 0 →
  allow_deferred_init v = true →
  Parameter_initialize p None i σ = (Ok (), note p v (chosen v i) σ).
Proof.
  intros Hv Hsh Ha. unfold Parameter_initialize.
  rewrite (bind_Ok _ _ _ _ _ (get_param_Some _ _ _ Hv)).
  rewrite decide_True by done. by rewrite Ha.
Qed.

Lemma initialize_known_shape σ p v i :
  heap σ !! p = Some v → prod_shape (shape v) ≠ 0 →
  Parameter_initialize p None i σ
  = (Ok (), materialize p v (chosen v i) σ).
Proof.
  intros Hv Hsh. unfold Parameter_initialize.
  rewrite (bind_Ok _ _ _ _ _ (get_param_Some _ _ _ Hv)).
  rewrite decide_False by done.
  erewrite bind_Ok by reflexivity.
  erewrite finish_deferred_init_noted;
    [|apply lookup_insert_eq|reflexivity|done].
  unfold materialize. cbn [heap next_id rng init_log shape name set_deferred_init].
  by rewrite insert_insert_eq.
Qed.

Lemma lookup_note_eq p v i σ :
  heap (note p v i σ) !! p = Some (set_deferred_init v (Some i)).
Proof. apply lookup_insert_eq. Qed.

Lemma lookup_note_ne p q v i σ :
  p ≠ q → heap (note p v i σ) !! q = heap σ !! q.
Proof. apply lookup_insert_ne. Qed.

Lemma lookup_materialize_eq p v i σ :
  heap (materialize p v i σ) !! p
  = Some (set_data (set_deferred_init v None) (draw i (shape v) (rng σ)).1).
Proof. apply lookup_insert_eq. Qed.

Lemma lookup_materialize_ne p q v i σ :
  p ≠ q → heap (materialize p v i σ) !! q = heap σ !! q.
Proof. apply lookup_insert_ne. Qed.

(** [initialize] on the two parameters of a layer built without
    [in_units]: the weight only notes the initializer, the bias, whose
    shape is known, is filled with zeros at once. *)
Lemma initialize_layer_unknown σ (self : Dense) vw vb i :
  heap σ !! weight self = Some vw → heap σ !! bias self = Some vb →
  weight self ≠ bias self →
  prod_shape (shape vw) = 0 → allow_deferred_init vw = true →
  prod_shape (shape vb) ≠ 0 →
  for_params (λ p, Parameter_initialize p None i) (collect_params self) σ
  = (Ok (),
     materialize (bias self) vb (chosen vb i)
       (note (weight self) vw (chosen vw i) σ)).
Proof.
  intros Hw Hb Hne Hsw Ha Hsb. cbn [collect_params Dense_Block for_params].
  erewrite bind_Ok by (by apply initialize_unknown_shape).
  erewrite bind_Ok; [reflexivity|].
  apply initialize_known_shape; [|done].
  cbn [heap note]. by rewrite lookup_insert_ne.
Qed.

(** The same with [in_units] given: both are materialized. *)
Lemma initialize_layer_known σ (self : Dense) vw vb i :
  heap σ !! weight self = Some vw → heap σ !! bias self = Some vb →
  weight self ≠ bias self →
  prod_shape (shape vw) ≠ 0 → prod_shape (shape vb) ≠ 0 →
  for_params (λ p, Parameter_initialize p None i) (collect_params self) σ
  = (Ok (),
     materialize (bias self) vb (chosen vb i)
       (materialize (weight self) vw (chosen vw i) σ)).
Proof.
  intros Hw Hb Hne Hsw Hsb. cbn [collect_params Dense_Block for_params].
  erewrite bind_Ok by (by apply initialize_known_shape).
  erewrite bind_Ok; [reflexivity|].
  apply initialize_known_shape; [|done].
  cbn [heap materialize]. by rewrite lookup_insert_ne.
Qed.

Lemma for_params_app (body : nat → M unit) ps qs σ :
  for_params body (ps ++ qs) σ = (for_params body ps ≫= λ _, for_params body qs) σ.
Proof.
  revert σ. induction ps as [|p ps IH]; intros σ; [done|].
  cbn [for_params app]. rewrite bind_assoc.
  destruct (body p σ) as [[[]|e] σ1] eqn:E.
  - rewrite !(bind_Ok _ _ _ _ _ E). apply IH.
  - by rewrite !(bind_Raise _ _ _ _ _ E).
Qed.

(** The first forward pass of a layer whose weight is still deferred:
    the input size is inferred from [x], the weight is materialized by
    the noted initializer, and the layer returns. *)
Lemma Dense_forward_first (self : Dense) x σ vw vb db i n rest :
  heap σ !! weight self = Some vw → shape vw = [_units self; 0] →
  _data vw = None → _deferred_init vw = Some i →
  heap σ !! bias self = Some vb → shape vb = [_units self] →
  _data vb = Some db → _deferred_init vb = None →
  weight self ≠ bias self → _units self ≠ 0 →
  nd_shape x = n :: rest → n ≠ 0 → prod_shape rest ≠ 0 →
  ∃ y, Dense_forward self x σ
       = (Ok y, materialize (weight self)
                  (set_shape vw [_units self; prod_shape rest]) i σ)
       ∧ nd_shape y = [n; _units self].
Proof.
  intros Hw Hsw Hdw Hiw Hb Hsb Hdb Hib Hne Hu Hx Hn Hk.
  assert (Hp : Dense_params self σ = (Raise DeferredInitializationError, σ)).
  { unfold Dense_params, Parameter_data.
    erewrite bind_Raise; [reflexivity|].
    rewrite (bind_Ok _ _ _ _ _ (get_param_Some _ _ _ Hw)). by rewrite Hdw, Hiw. }
  set (sh := [_units self; prod_shape rest]).
  set (σ1 := mkState (<[weight self := set_shape vw sh]> (heap σ)) (next_id σ)
                     (rng σ) (init_log σ)).
  assert (Hi : Dense_infer_shape self x σ = (Ok (), σ1)).
  { unfold Dense_infer_shape. rewrite Hx. rewrite decide_False by done.
    rewrite (bind_Ok _ _ _ _ _ (get_param_Some _ _ _ Hw)).
    rewrite decide_True; [done|]. rewrite Hsw. split; [done|].
    constructor; [by right|]. constructor; [by left|]. constructor. }
  set (σ2 := materialize (weight self) (set_shape vw sh) i σ).
  assert (Hf : for_params Parameter__finish_deferred_init
                 [weight self; bias self] σ1 = (Ok (), σ2)).
  { cbn [for_params].
    erewrite bind_Ok; cycle 1.
    { apply finish_deferred_init_noted; [apply lookup_insert_eq|done|].
      apply prod_shape_known. by repeat constructor. }
    erewrite bind_Ok; cycle 1.
    { eapply finish_deferred_init_none; [|exact Hib].
      unfold materialize, σ1. cbn [heap]. by rewrite !lookup_insert_ne. }
    unfold σ2, σ1, materialize. cbn [heap next_id rng init_log].
    by rewrite insert_insert_eq. }
  set (dw := (draw i sh (rng σ)).1).
  assert (Hp2 : Dense_params self σ2
                = (Ok (mkNDArray sh dw, mkNDArray [_units self] db), σ2)).
  { apply Dense_params_materialized.
    - eexists. split; [apply lookup_insert_eq|done].
    - exists vb. split; [|done]. unfold σ2, materialize. cbn [heap].
      by rewrite lookup_insert_ne. }
  unfold Dense_forward, try_except_deferred.
  unfold mbind at 1, M_bind at 1. rewrite Hp.
  rewrite (bind_Ok _ _ _ _ _ Hi), (bind_Ok _ _ _ _ _ Hf), Hp2.
  unfold lift, Dense_hybrid_forward, FullyConnected. rewrite Hx.
  cbn [nd_shape]. rewrite decide_False by done. rewrite decide_True by done.
  eexists. split; [reflexivity|]. by destruct (act self) as [[]|].
Qed.

(** A first forward pass on an input without rows: no shape can be
    inferred, and the layer is left as it was. *)
Lemma Dense_forward_first_no_rows (self : Dense) x σ vw i rest :
  heap σ !! weight self = Some vw →
  _data vw = None → _deferred_init vw = Some i →
  nd_shape x = 0 :: rest →
  Dense_forward self x σ = (Raise ValueError, σ).
Proof.
  intros Hw Hdw Hiw Hx.
  assert (Hp : Dense_params self σ = (Raise DeferredInitializationError, σ)).
  { unfold Dense_params, Parameter_data.
    erewrite bind_Raise; [reflexivity|].
    rewrite (bind_Ok _ _ _ _ _ (get_param_Some _ _ _ Hw)). by rewrite Hdw, Hiw. }
  unfold Dense_forward, try_except_deferred.
  unfold mbind at 1, M_bind at 1. rewrite Hp.
  erewrite bind_Raise; [reflexivity|].
  unfold Dense_infer_shape. rewrite Hx. by rewrite decide_True.
Qed.

Ltac unfold_locals :=
  repeat match goal with x := _ |- _ => progress unfold x end.

Ltac key_neq :=
  unfold_locals; cbn [weight bias Nat.add];
  repeat match goal with H : _ |- _ => clear H end; lia.

Ltac heap_lookup :=
  unfold_locals; cbn [weight bias Nat.add];
  repeat (rewrite lookup_materialize_eq
          || rewrite lookup_note_eq
          || (rewrite lookup_materialize_ne by key_neq)
          || (rewrite lookup_note_ne by key_neq));
  cbn [heap];
  repeat (rewrite lookup_insert_eq || (rewrite lookup_insert_ne by key_neq));
  reflexivity.

Lemma draw_length i sh (g : Rng) :
  (∀ j sh' g', length (sample j sh' g').1 = prod_shape sh') →
  length (draw i sh g).1 = prod_shape sh.
Proof.
  intros Hs. destruct i; cbn [draw fst]; [apply Hs|apply Hs|].
  apply length_replicate.
Qed.

(** C3: with [in_units] given for every layer, all six shapes are
    determined when [net2] has been built, none with a zero dimension,
    and [collect_params().initialize(i)], with no input seen and no
    forward pass made, materializes and initializes every parameter:
    each weight holds what [i] writes for the shape of that weight, the
    generator being passed on from one weight to the next, each bias
    holds zeros, as many as it has units, and nothing is left deferred.
    With an initializer that writes as many elements as the shape asks
    for, every array is as long as its shape says. *)
Theorem net2_initialized_before_data prefix i (σ0 : State T Rng) :
  ∃ (net2 : Sequential) σ1 σ2,
    net2_cell prefix σ0 = (Ok net2, σ1)
    ∧ length (collect_params net2) = 6
    ∧ Forall2 (λ p sh, ∃ v, heap σ1 !! p = Some v ∧ shape v = sh
                            ∧ _data v = None ∧ Forall (λ d, d ≠ 0) sh)
        (collect_params net2)
        [[128; 784]; [128]; [64; 128]; [64]; [10; 64]; [10]]
    ∧ ParameterDict_initialize (collect_params net2) i σ1 = (Ok (), σ2)
    ∧ (let w0 := draw i [128; 784] (rng σ0) in
       let w1 := draw i [64; 128] w0.2 in
       let w2 := draw i [10; 64] w1.2 in
       Forall2 (λ p '(sh, d), ∃ v, heap σ2 !! p = Some v ∧ shape v = sh
                                    ∧ _data v = Some d
                                    ∧ _deferred_init v = None)
         (collect_params net2)
         [([128; 784], w0.1); ([128], replicate 128 zero);
          ([64; 128], w1.1); ([64], replicate 64 zero);
          ([10; 64], w2.1); ([10], replicate 10 zero)]
       ∧ rng σ2 = w2.2)
    ∧ ((∀ j sh g, length (sample j sh g).1 = prod_shape sh) →
       Forall (λ p, ∃ v d, heap σ2 !! p = Some v ∧ _data v = Some d
                           ∧ length d = prod_shape (shape v))
              (collect_params net2))
    ∧ ic_init <$> init_log σ2
      = [Zeros; i; Zeros; i; Zeros; i] ++ (ic_init <$> init_log σ0)
    ∧ ic_shape <$> init_log σ2
      = [[10]; [10; 64]; [64]; [64; 128]; [128]; [128; 784]]
        ++ (ic_shape <$> init_log σ0).
Proof.
  set (a := next_id σ0).
  set (d0 := mkDense 128 (Some act_relu) a (1 + a)).
  set (d1 := mkDense 64 (Some act_relu) (2 + a) (3 + a)).
  set (d2 := mkDense 10 None (4 + a) (5 + a)).
  evar (σ1 : State T Rng).
  assert (Hc : net2_cell prefix σ0
               = (Ok (Sequential_add (Sequential_add (Sequential_add
                        (mkSequential []) d0) d1) d2), σ1)).
  { unfold net2_cell, Dense_init, new_param, Sequential_add, register_child.
    unfold mbind, M_bind, mret, M_ret. cbn. unfold σ1. reflexivity. }
  evar (σ2 : State T Rng).
  assert (Hi : for_params (λ p, Parameter_initialize p None i)
                 (collect_params d0 ++ collect_params d1 ++ collect_params d2)
                 σ1 = (Ok (), σ2)).
  { rewrite for_params_app.
    erewrite bind_Ok; cycle 1.
    { apply initialize_layer_known; cbn [weight bias heap];
        [heap_lookup|heap_lookup|key_neq|..];
        apply prod_shape_known; by repeat constructor. }
    rewrite for_params_app.
    erewrite bind_Ok; cycle 1.
    { apply initialize_layer_known; cbn [weight bias heap];
        [heap_lookup|heap_lookup|key_neq|..];
        apply prod_shape_known; by repeat constructor. }
    unfold σ2.
    apply initialize_layer_known; cbn [weight bias heap];
      [heap_lookup|heap_lookup|key_neq|..];
      apply prod_shape_known; by repeat constructor. }
  eexists _, σ1, σ2. split_and!.
  - exact Hc.
  - reflexivity.
  - repeat (constructor; [eexists; split; [heap_lookup|]; split_and!;
                            [reflexivity|reflexivity|by repeat constructor]|]).
    constructor.
  - exact Hi.
  - cbn zeta. split; [|reflexivity].
    repeat (constructor; [eexists; split; [heap_lookup|]; split_and!;
                            reflexivity|]).
    constructor.
  - intros Hs.
    repeat (constructor;
            [eexists _, _; split; [heap_lookup|]; split; [reflexivity|];
             cbn [shape set_data set_deferred_init];
             first [apply length_replicate | apply (draw_length _ _ _ Hs)]|]).
    constructor.
  - reflexivity.
  - reflexivity.
Qed.


(** ** Footprints *)

Lemma only_touches_refl ps σ : only_touches ps σ σ.
Proof. by split. Qed.

Lemma only_touches_trans ps σ σ1 σ2 :
  only_touches ps σ σ1 → only_touches ps σ1 σ2 → only_touches ps σ σ2.
Proof.
  intros [Hn1 Hh1] [Hn2 Hh2]. split; [congruence|].
  intros p Hp. by rewrite Hh2, Hh1.
Qed.

Lemma touches_mono {A} ps qs (m : M A) :
  (∀ p, p ∈ ps → p ∈ qs) → touches ps m → touches qs m.
Proof.
  intros Hsub Hm σ r σ' Hr. destruct (Hm _ _ _ Hr) as [Hn Hh].
  split; [done|]. intros p Hp. apply Hh. intros Hin. by apply Hp, Hsub.
Qed.

Lemma touches_ret {A} ps (a : A) : touches ps (mret a : M A).
Proof. intros σ r σ' [= _ <-]. apply only_touches_refl. Qed.

Lemma touches_raise {A} ps e : touches ps (raise e : M A).
Proof. intros σ r σ' [= _ <-]. apply only_touches_refl. Qed.

Lemma touches_lift {A} ps (r : Result A) : touches ps (lift r : M A).
Proof. intros σ r' σ' [= _ <-]. apply only_touches_refl. Qed.

Lemma touches_bind {A B} ps (m : M A) (f : A → M B) :
  touches ps m → (∀ a, touches ps (f a)) → touches ps (m ≫= f).
Proof.
  intros Hm Hf σ r σ'. unfold mbind, M_bind.
  destruct (m σ) as [[a|e] σ1] eqn:E; intros Hr.
  - eapply only_touches_trans; [by eapply Hm|by eapply Hf].
  - injection Hr as _ <-. by eapply Hm.
Qed.

Lemma touches_fmap {A B} ps (g : A → B) (m : M A) :
  touches ps m → touches ps (g <$> m).
Proof.
  intros Hm σ r σ'. unfold fmap, M_fmap.
  destruct (m σ) as [[a|e] σ1] eqn:E; intros [= _ <-]; by eapply Hm.
Qed.

Lemma touches_try_except {A} ps (body handler : M A) :
  touches ps body → touches ps handler →
  touches ps (try_except_deferred body handler).
Proof.
  intros Hb Hh σ r σ'. unfold try_except_deferred.
  destruct (body σ) as [[a|e] σ1] eqn:E.
  - intros [= _ <-]. by eapply Hb.
  - destruct e; try (intros [= _ <-]; by eapply Hb).
    intros Hr. eapply only_touches_trans; [by eapply Hb|by eapply Hh].
Qed.

Lemma touches_get_param ps p : touches ps (get_param p : M _).
Proof.
  intros σ r σ'. unfold get_param.
  destruct (heap σ !! p); intros [= _ <-]; apply only_touches_refl.
Qed.

Lemma touches_set_param ps p v : p ∈ ps → touches ps (set_param p v : M _).
Proof.
  intros Hp σ r σ' [= _ <-]. split; [done|]. intros q Hq. cbn [heap].
  apply lookup_insert_ne. by intros ->.
Qed.

Lemma touches_run_initializer ps nm i sh :
  touches ps (run_initializer nm i sh : M _).
Proof. intros σ r σ' [= _ <-]. by split. Qed.

Lemma touches_finish_deferred_init ps p :
  p ∈ ps → touches ps (Parameter__finish_deferred_init p : M _).
Proof.
  intros Hp. unfold Parameter__finish_deferred_init.
  apply touches_bind; [apply touches_get_param|]. intros v.
  destruct (_deferred_init v); [|apply touches_ret].
  apply touches_bind; [by apply touches_set_param|]. intros _.
  case_decide; [apply touches_raise|].
  apply touches_bind; [apply touches_run_initializer|]. intros d.
  by apply touches_set_param.
Qed.

Lemma touches_Parameter_initialize ps p o i :
  p ∈ ps → touches ps (Parameter_initialize p o i : M _).
Proof.
  intros Hp. unfold Parameter_initialize.
  apply touches_bind; [apply touches_get_param|]. intros v.
  case_decide.
  - destruct (allow_deferred_init v);
      [by apply touches_set_param|apply touches_raise].
  - apply touches_bind; [by apply touches_set_param|]. intros _.
    by apply touches_finish_deferred_init.
Qed.

Lemma touches_Parameter_data ps p : touches ps (Parameter_data p : M _).
Proof.
  unfold Parameter_data.
  apply touches_bind; [apply touches_get_param|]. intros v.
  destruct (_data v); [apply touches_ret|].
  destruct (_deferred_init v); apply touches_raise.
Qed.

Lemma touches_for_params ps (body : nat → M unit) qs :
  (∀ q, q ∈ qs → touches ps (body q)) → touches ps (for_params body qs).
Proof.
  induction qs as [|q qs IH]; intros Hq; cbn [for_params];
    [apply touches_ret|].
  apply touches_bind; [apply Hq; by left|]. intros _.
  apply IH. intros q' Hq'. apply Hq. by right.
Qed.

Lemma touches_Dense_params ps (self : Dense) : touches ps (Dense_params self : M _).
Proof.
  unfold Dense_params.
  apply touches_bind; [apply touches_Parameter_data|]. intros w.
  apply touches_bind; [apply touches_Parameter_data|]. intros b.
  apply touches_ret.
Qed.

(** A [Dense] layer touches its weight and its bias, in whatever state
    they are, and whether it returns or raises. *)
Lemma touches_Dense_forward (self : Dense) x :
  touches [weight self; bias self] (Dense_forward self x : M _).
Proof.
  unfold Dense_forward.
  apply touches_bind.
  - apply touches_try_except; [apply touches_Dense_params|].
    apply touches_bind.
    { unfold Dense_infer_shape. destruct (nd_shape x); [apply touches_raise|].
      case_decide; [apply touches_raise|].
      apply touches_bind; [apply touches_get_param|]. intros v.
      case_decide; [|apply touches_raise].
      apply touches_set_param. by left. }
    intros _. apply touches_bind; [|intros _; apply touches_Dense_params].
    apply touches_for_params. intros q Hq.
    by apply touches_finish_deferred_init.
  - intros [w b]. apply touches_lift.
Qed.

Lemma touches_MLP_forward (self : MLP) x :
  touches (collect_params self) (forward self x).
Proof.
  cbn [forward collect_params MLP_Block Dense_Block]. unfold MLP_forward.
  assert (Hd : ∀ d y, d ∈ [dense0 self; dense1 self; dense2 self] →
            touches (([weight (dense0 self); bias (dense0 self)]
                      ++ [weight (dense1 self); bias (dense1 self)]
                      ++ [weight (dense2 self); bias (dense2 self)]))
                    (__call__ d y)).
  { intros d y Hd. eapply touches_mono; [|apply touches_Dense_forward].
    intros p Hp. rewrite !elem_of_app. rewrite !elem_of_cons in Hd.
    destruct Hd as [->|[->|[->|Hd]]]; [tauto..|by apply elem_of_nil in Hd]. }
  apply touches_bind; [apply touches_fmap, Hd; by left|]. intros y0.
  apply touches_bind; [apply touches_fmap, Hd; by right; left|]. intros y1.
  apply Hd. by right; right; left.
Qed.

(** X1: [MLP.forward] changes no parameter other than those of its three
    layers and creates none, in every state and on every input, also
    when it raises. *)
Theorem MLP_forward_touches_own_parameters (self : MLP) x σ r σ' :
  forward self x σ = (r, σ') →
  next_id σ' = next_id σ
  ∧ ∀ p, p ∉ collect_params self → heap σ' !! p = heap σ !! p.
Proof. intros Hr. exact (touches_MLP_forward self x σ r σ' Hr). Qed.

Lemma touches_for_children (cs : list child) x :
  Forall (λ c, ∀ y, touches (child_params c) (child_call c y)) cs →
  touches (concat (map child_params cs)) (for_children cs x).
Proof.
  intros Hcs. revert x. induction Hcs as [|c cs Hc _ IH]; intros x.
  - apply touches_ret.
  - unfold for_children. cbn [for_blocks map concat].
    apply touches_bind.
    + eapply touches_mono; [|apply Hc].
      intros p Hp. apply elem_of_app. by left.
    + intros y. eapply touches_mono; [|apply IH].
      intros p Hp. apply elem_of_app. by right.
Qed.

(** X2: if each child of a [Sequential] touches only its own
    parameters, [Sequential.forward] touches only the parameters of the
    children, and creates none. *)
Theorem Sequential_forward_touches_own_parameters (s : Sequential) x σ r σ' :
  Forall (λ c, ∀ y, touches (child_params c) (child_call c y))
         (_children s) →
  forward s x σ = (r, σ') →
  next_id σ' = next_id σ
  ∧ ∀ p, p ∉ collect_params s → heap σ' !! p = heap σ !! p.
Proof.
  intros Hcs Hr. exact (touches_for_children (_children s) x Hcs σ r σ' Hr).
Qed.

(** ** Composing [Sequential]s *)

(** X3: a [Sequential] with the children [bs] followed by [cs] is the
    [Sequential] of [bs] followed by the [Sequential] of [cs]: the second
    runs on the output and in the state of the first, and it does not
    run at all when the first raises. *)
Theorem Sequential_forward_app (bs cs : list child) x σ :
  forward (mkSequential (bs ++ cs)) x σ =
    match forward (mkSequential bs) x σ with
    | (Ok y, σ1) => forward (mkSequential cs) y σ1
    | (Raise e, σ1) => (Raise e, σ1)
    end.
Proof.
  cbn [forward Sequential_Block]. unfold Sequential_forward. cbn [_children].
  rewrite for_children_app. unfold mbind, M_bind.
  by destruct (for_children bs x σ) as [[y|e] σ1].
Qed.

(** X4: nesting does not matter: a [Sequential] registered as a child
    behaves as if its children had been registered in its place, and
    the parameters collected are the same. *)
Theorem Sequential_nesting_flattens (bs cs ds : list child) x σ :
  forward (mkSequential (bs ++ Nested cs :: ds)) x σ
  = forward (mkSequential (bs ++ cs ++ ds)) x σ
  ∧ collect_params (mkSequential (bs ++ Nested cs :: ds))
    = collect_params (mkSequential (bs ++ cs ++ ds)).
Proof.
  split.
  - cbn [forward Sequential_Block]. unfold Sequential_forward.
    cbn [_children]. rewrite !for_children_app.
    destruct (for_children bs x σ) as [[y|e] σ1] eqn:E.
    + rewrite !(bind_Ok _ _ _ _ _ E). rewrite for_children_app.
      reflexivity.
    + by rewrite !(bind_Raise _ _ _ _ _ E).
  - cbn [collect_params Sequential_Block _children].
    rewrite !map_app, !concat_app. by cbn [map concat child_params].
Qed.

(** ** Networks built one after the other *)

Lemma net1_cell_params prefix σ (net : Sequential) σ' :
  net1_cell prefix σ = (Ok net, σ') →
  collect_params net = seq (next_id σ) 6 ∧ next_id σ' = 6 + next_id σ.
Proof.
  intros Hn.
  assert (E : net1_cell (T:=T) prefix σ
              = (Ok (mkSequential
                 [Child Dense _ (mkDense 128 (Some act_relu) (next_id σ) (1 + next_id σ));
                  Child Dense _ (mkDense 64 (Some act_relu) (2 + next_id σ) (3 + next_id σ));
                  Child Dense _ (mkDense 10 None (4 + next_id σ) (5 + next_id σ))]),
                 (net1_cell prefix σ).2)) by reflexivity.
  rewrite E in Hn. injection Hn as <- <-. done.
Qed.

Lemma MLP_init_params prefix σ (net : MLP) σ' :
  MLP_init prefix σ = (Ok net, σ') →
  collect_params net = seq (next_id σ) 6 ∧ next_id σ' = 6 + next_id σ.
Proof.
  intros Hn.
  assert (E : MLP_init (T:=T) prefix σ
              = (Ok (mkMLP (mkDense 128 None (next_id σ) (1 + next_id σ))
                     (mkDense 64 None (2 + next_id σ) (3 + next_id σ))
                     (mkDense 10 None (4 + next_id σ) (5 + next_id σ))),
                 (MLP_init prefix σ).2)) by reflexivity.
  rewrite E in Hn. injection Hn as <- <-. done.
Qed.

Lemma touches_net1 prefix σ0 (net : Sequential) σ1 x :
  net1_cell prefix σ0 = (Ok net, σ1) →
  touches (collect_params net) (forward net x).
Proof.
  intros Hn. destruct (net1_cell_eq prefix σ0) as (? & E). rewrite E in Hn.
  injection Hn as <- _. apply touches_for_children.
  repeat (constructor; [intros y; apply touches_Dense_forward|]). constructor.
Qed.

Lemma elem_of_seq_disjoint (p a b n m : nat) :
  a + n ≤ b → p ∈ seq a n → p ∉ seq b m.
Proof. rewrite !elem_of_seq. lia. Qed.

(** X5: two networks built one after the other share no parameter:
    with [net1] built first and the [MLP] after it, as in the notebook,
    a forward pass or the initialization of one leaves every parameter
    of the other as it was. *)
Theorem networks_do_not_share_parameters prefix1 prefix2
    (σ0 σ1 σ2 : State T Rng) (net1 : Sequential) (net2 : MLP) :
  net1_cell prefix1 σ0 = (Ok net1, σ1) →
  MLP_init prefix2 σ1 = (Ok net2, σ2) →
  (∀ p, p ∈ collect_params net1 → p ∉ collect_params net2)
  ∧ (∀ x σ r σ' p, forward net2 x σ = (r, σ') →
       p ∈ collect_params net1 → heap σ' !! p = heap σ !! p)
  ∧ (∀ i σ r σ' p, initialize net2 i σ = (r, σ') →
       p ∈ collect_params net1 → heap σ' !! p = heap σ !! p)
  ∧ (∀ x σ r σ' p, forward net1 x σ = (r, σ') →
       p ∈ collect_params net2 → heap σ' !! p = heap σ !! p)
  ∧ (∀ i σ r σ' p, initialize net1 i σ = (r, σ') →
       p ∈ collect_params net2 → heap σ' !! p = heap σ !! p).
Proof.
  intros Hn1 Hn2.
  destruct (net1_cell_params _ _ _ _ Hn1) as [Hp1 Hnx].
  destruct (MLP_init_params _ _ _ _ Hn2) as [Hp2 _].
  assert (Hdis : ∀ p, p ∈ collect_params net1 → p ∉ collect_params net2).
  { intros p. rewrite Hp1, Hp2, Hnx. apply elem_of_seq_disjoint. lia. }
  assert (Hinit : ∀ {B} {HB : Block T Rng B} (net : B) i,
            touches (collect_params net) (initialize net i)).
  { intros B HB net i. apply touches_for_params.
    intros q Hq. by apply touches_Parameter_initialize. }
  split_and!.
  - exact Hdis.
  - intros x σ r σ' p Hr Hp.
    by apply (touches_MLP_forward net2 x _ _ _ Hr), Hdis.
  - intros i σ r σ' p Hr Hp. by apply (Hinit _ _ net2 i _ _ _ Hr), Hdis.
  - intros x σ r σ' p Hr Hp.
    apply (touches_net1 _ _ _ _ x Hn1 _ _ _ Hr). intros Hin. by apply (Hdis p).
  - intros i σ r σ' p Hr Hp.
    apply (Hinit _ _ net1 i _ _ _ Hr). intros Hin. by apply (Hdis p).
Qed.

(** ** Layers that are ready *)

Lemma prod_shape_one u : prod_shape [u] = u.
Proof. unfold prod_shape. cbn [foldr]. lia. Qed.

Lemma prod_shape_two n u : prod_shape [n; u] = n * u.
Proof. unfold prod_shape. cbn [foldr]. lia. Qed.

Lemma length_bind_const {A B} (f : A → list B) (l : list A) u :
  (∀ a, length (f a) = u) → length (l ≫= f) = length l * u.
Proof.
  intros Hf. induction l as [|a l IH]; [done|].
  rewrite bind_cons, length_app, Hf, IH. cbn [length]. lia.
Qed.

Lemma FullyConnected_length (x w b y : NDArray T) u n rest :
  FullyConnected x w b u = Ok y → nd_shape x = n :: rest →
  length (nd_data y) = n * u.
Proof.
  unfold FullyConnected. intros Hy Hx. rewrite Hx in Hy.
  case_decide; [done|]. case_decide; [|done].
  injection Hy as <-. cbn [nd_data].
  rewrite (length_bind_const _ _ u); [by rewrite length_seq|].
  intros i. by rewrite length_fmap, length_seq.
Qed.

Lemma Dense_hybrid_forward_length (self : Dense) (x w b y : NDArray T) n rest :
  Dense_hybrid_forward self x w b = Ok y → nd_shape x = n :: rest →
  length (nd_data y) = n * _units self.
Proof.
  unfold Dense_hybrid_forward.
  destruct (FullyConnected x w b (_units self)) as [z|e] eqn:E; [|done].
  intros [= <-] Hx. pose proof (FullyConnected_length _ _ _ _ _ _ _ E Hx) as Hz.
  destruct (act self) as [[]|]; [|done].
  cbn [Activation relu nd_data]. by rewrite length_fmap.
Qed.

Lemma Dense_forward_length (self : Dense) x σ y σ' n rest :
  Dense_forward self x σ = (Ok y, σ') → nd_shape x = n :: rest →
  length (nd_data y) = n * _units self.
Proof.
  unfold Dense_forward. intros Hf Hx.
  apply bind_Ok_inv in Hf as ([w b] & σ1 & _ & Hf).
  unfold lift in Hf. injection Hf as Hf _.
  by eapply Dense_hybrid_forward_length.
Qed.

(** X6: whatever the state of the parameters, an array that the [MLP]
    returns for an input of [n] rows holds [n] times the units of the
    last layer, which is what its shape says. *)
Theorem MLP_output_is_well_formed (self : MLP) x σ y σ' n rest :
  forward self x σ = (Ok y, σ') → nd_shape x = n :: rest →
  length (nd_data y) = n * _units (dense2 self) ∧ well_formed y.
Proof.
  intros Hy Hx. cbn [forward MLP_Block] in Hy.
  rewrite MLP_forward_unfold in Hy.
  destruct (__call__ (dense0 self) x σ) as [[y0|?] σ1] eqn:E0; [|done].
  destruct (__call__ (dense1 self) (relu y0) σ1) as [[y1|?] σ2] eqn:E1;
    [|done].
  apply Dense_forward_shape in E0 as (n0 & r0 & Hx0 & Hy0).
  apply Dense_forward_shape in E1 as (n1 & r1 & Hx1 & Hy1).
  pose proof (Dense_forward_shape _ _ _ _ _ Hy) as (n2 & r2 & Hx2 & Hy2).
  cbn [relu nd_shape] in Hx1, Hx2.
  assert (n2 = n) as -> by congruence.
  pose proof (Dense_forward_length _ _ _ _ _ _ _ Hy Hx2) as Hl.
  split; [exact Hl|]. unfold well_formed. by rewrite Hl, Hy2, prod_shape_two.
Qed.

Lemma Dense_forward_ready (self : Dense) k σ x n rest :
  Dense_ready self k σ → nd_shape x = n :: rest → n ≠ 0 →
  prod_shape rest = k →
  ∃ y, Dense_forward self x σ = (Ok y, σ) ∧ nd_shape y = [n; _units self].
Proof.
  intros (dw & db & Hw & Hb) Hx Hn Hk.
  rewrite (Dense_forward_materialized _ _ _ _ _ _ _ Hw Hb).
  unfold Dense_hybrid_forward, FullyConnected. rewrite Hx. cbn [nd_shape].
  rewrite decide_False by done. rewrite decide_True by (by rewrite Hk).
  eexists. split; [reflexivity|]. by destruct (act self) as [[]|].
Qed.

Lemma Dense_forward_wrong_size (self : Dense) k σ x :
  Dense_ready self k σ →
  (∀ n rest, nd_shape x = n :: rest → n = 0 ∨ prod_shape rest ≠ k) →
  Dense_forward self x σ = (Raise MXNetError, σ).
Proof.
  intros (dw & db & Hw & Hb) Hx.
  rewrite (Dense_forward_materialized _ _ _ _ _ _ _ Hw Hb).
  unfold Dense_hybrid_forward, FullyConnected.
  destruct (nd_shape x) as [|n rest] eqn:E; [done|]. cbn [nd_shape].
  case_decide; [done|].
  rewrite decide_False; [done|]. intros [[= Hk] _].
  by destruct (Hx n rest eq_refl).
Qed.

(** Three layers that are ready, with [f] between them. *)
Lemma layers_forward_ready (d0 d1 d2 : Dense) (f : NDArray T → NDArray T)
    k σ x n rest :
  (∀ z, nd_shape (f z) = nd_shape z) →
  layers_ready d0 d1 d2 k σ → nd_shape x = n :: rest → n ≠ 0 →
  prod_shape rest = k →
  ∃ y0 y1 y,
    __call__ d0 x σ = (Ok y0, σ) ∧ __call__ d1 (f y0) σ = (Ok y1, σ)
    ∧ __call__ d2 (f y1) σ = (Ok y, σ) ∧ nd_shape y = [n; _units d2].
Proof.
  intros Hf (H0' & H1' & H2') Hx Hn Hk.
  destruct (Dense_forward_ready _ _ _ _ _ _ H0' Hx Hn Hk)
    as (y0 & E0 & Hy0).
  destruct (Dense_forward_ready d1 _ σ (f y0) n [_units d0] H1')
    as (y1 & E1 & Hy1); [by rewrite Hf|done|apply prod_shape_one|].
  destruct (Dense_forward_ready d2 _ σ (f y1) n [_units d1] H2')
    as (y & E2 & Hy2); [by rewrite Hf|done|apply prod_shape_one|].
  by exists y0, y1, y.
Qed.

(** X7: once its parameters are materialized for input rows of length
    [k], the [MLP] accepts every input that has at least one such row:
    it returns one row of outputs per input row and leaves the state as
    it is.  An input with no row at all is refused with the operator's
    shape error, and the state is left as it is as well. *)
Theorem MLP_forward_when_ready (self : MLP) k σ x n rest :
  MLP_ready self k σ → nd_shape x = n :: rest → prod_shape rest = k →
  (n ≠ 0 → ∃ y, forward self x σ = (Ok y, σ)
                ∧ nd_shape y = [n; _units (dense2 self)])
  ∧ (n = 0 → forward self x σ = (Raise MXNetError, σ)).
Proof.
  intros Hr Hx Hk. split.
  - intros Hn.
    destruct (layers_forward_ready _ _ _ relu _ _ _ _ _ relu_shape Hr Hx
                Hn Hk) as (y0 & y1 & y & E0 & E1 & E2 & Hy).
    exists y. split; [|exact Hy].
    cbn [forward MLP_Block]. rewrite MLP_forward_unfold. by rewrite E0, E1.
  - intros ->. destruct Hr as (H0' & _).
    cbn [forward MLP_Block]. rewrite MLP_forward_unfold.
    unfold __call__ at 1. cbn [forward Dense_Block].
    rewrite (Dense_forward_wrong_size _ _ _ _ H0'); [done|].
    intros n' rest' Hx'. left. congruence.
Qed.

(** X8: the first input fixes the input size: once the parameters are
    materialized for rows of length [k], an input without dimensions or
    with rows of another length makes [MLP.forward] raise the operator's
    shape error, with the state left as it is. *)
Theorem MLP_forward_wrong_input_size (self : MLP) k σ x :
  MLP_ready self k σ →
  (∀ n rest, nd_shape x = n :: rest → prod_shape rest ≠ k) →
  forward self x σ = (Raise MXNetError, σ).
Proof.
  intros (H0' & _) Hx. cbn [forward MLP_Block]. rewrite MLP_forward_unfold.
  unfold __call__ at 1. cbn [forward Dense_Block].
  rewrite (Dense_forward_wrong_size _ _ _ _ H0'); [done|].
  intros n rest Hn. right. by apply (Hx n rest).
Qed.

(** ** Before [initialize] *)

Lemma Dense_forward_uninitialized (self : Dense) x σ v :
  heap σ !! weight self = Some v → _data v = None →
  _deferred_init v = None →
  Dense_forward self x σ = (Raise RuntimeError, σ).
Proof.
  intros Hv Hd Hi.
  assert (Hp : Dense_params self σ = (Raise RuntimeError, σ)).
  { unfold Dense_params, Parameter_data.
    erewrite bind_Raise; [reflexivity|].
    rewrite (bind_Ok _ _ _ _ _ (get_param_Some _ _ _ Hv)). by rewrite Hd, Hi. }
  unfold Dense_forward. erewrite bind_Raise; [reflexivity|].
  unfold try_except_deferred. by rewrite Hp.
Qed.

Lemma MLP_init_uninitialized prefix σ (net : MLP) σ' :
  MLP_init prefix σ = (Ok net, σ') →
  ∃ v, heap σ' !! weight (dense0 net) = Some v ∧ _data v = None
       ∧ _deferred_init v = None.
Proof.
  unfold MLP_init, Dense_init, new_param, mbind, M_bind, mret, M_ret.
  cbn. intros [= <- <-]. eexists. cbn [heap weight dense0].
  split; [repeat (rewrite lookup_insert_eq || (rewrite lookup_insert_ne by lia));
          reflexivity|split; reflexivity].
Qed.

Lemma net1_cell_uninitialized prefix σ (net : Sequential) σ' :
  net1_cell prefix σ = (Ok net, σ') →
  ∃ (d : Dense) rest v,
    _children net = Child Dense _ d :: rest
    ∧ heap σ' !! weight d = Some v ∧ _data v = None
    ∧ _deferred_init v = None.
Proof.
  unfold net1_cell, Dense_init, new_param, Sequential_add, register_child.
  unfold mbind, M_bind, mret, M_ret.
  cbn. intros [= <- <-]. eexists _, _, _. cbn [_children].
  split; [reflexivity|]. cbn [heap weight].
  split; [repeat (rewrite lookup_insert_eq
                  || (rewrite lookup_insert_ne by lia));
          reflexivity|split; reflexivity].
Qed.

(** X9: a network that has been built but not initialized cannot be
    used: a forward pass of the [MLP], and of [net1], raises
    [RuntimeError] on every input and leaves the state as it is. *)
Theorem forward_before_initialize_raises prefix (σ0 σ1 : State T Rng) x :
  (∀ net : MLP, MLP_init prefix σ0 = (Ok net, σ1) →
     forward net x σ1 = (Raise RuntimeError, σ1))
  ∧ (∀ net : Sequential, net1_cell prefix σ0 = (Ok net, σ1) →
     forward net x σ1 = (Raise RuntimeError, σ1)).
Proof.
  split; intros net Hn.
  - destruct (MLP_init_uninitialized _ _ _ _ Hn) as (v & Hv & Hd & Hi).
    cbn [forward MLP_Block]. rewrite MLP_forward_unfold.
    unfold __call__ at 1. cbn [forward Dense_Block].
    by rewrite (Dense_forward_uninitialized _ x _ _ Hv Hd Hi).
  - destruct (net1_cell_uninitialized _ _ _ _ Hn)
      as (d & rest & v & Hc & Hv & Hd & Hi).
    cbn [forward Sequential_Block]. unfold Sequential_forward. rewrite Hc.
    unfold for_children. cbn [for_blocks child_call].
    erewrite bind_Raise; [reflexivity|]. unfold __call__.
    cbn [forward Dense_Block].
    by rewrite (Dense_forward_uninitialized _ x _ _ Hv Hd Hi).
Qed.

(** ** The notebook's [net2 = MLP()], [initialize], first call *)

(** X10: [net2 = MLP()], [net2.initialize(i)] and a first call on an
    input with rows of non-zero length [k].  [initialize] calls
    ['zeros'] on the three biases and notes [i] for the three weights.
    When the input has at least one row, the call returns one row of 10
    outputs per input row, after it the network is ready for rows of
    length [k], and during it [i] has been called on the three weights,
    with the shapes inferred.  When the input has no row, no shape can
    be inferred from it: the call raises [ValueError] and leaves the
    state as it is, with the weights still noted. *)
Theorem MLP_first_call prefix i (σ0 : State T Rng) x n rest :
  nd_shape x = n :: rest → prod_shape rest ≠ 0 →
  ∃ (net : MLP) σ1 σ2,
    MLP_init prefix σ0 = (Ok net, σ1)
    ∧ initialize net i σ1 = (Ok (), σ2)
    ∧ init_log σ2
      = [mkInitCall ((prefix +:+ "dense2_") +:+ "bias") Zeros [10];
         mkInitCall ((prefix +:+ "dense1_") +:+ "bias") Zeros [64];
         mkInitCall ((prefix +:+ "dense0_") +:+ "bias") Zeros [128]]
        ++ init_log σ0
    ∧ (∀ d, d ∈ [dense0 net; dense1 net; dense2 net] →
         deferred σ2 (weight d) [_units d; 0] i)
    ∧ (n ≠ 0 →
       ∃ y σ3,
         forward net x σ2 = (Ok y, σ3)
         ∧ nd_shape y = [n; 10]
         ∧ MLP_ready net (prod_shape rest) σ3
         ∧ init_log σ3
           = [mkInitCall ((prefix +:+ "dense2_") +:+ "weight") i [10; 64];
              mkInitCall ((prefix +:+ "dense1_") +:+ "weight") i [64; 128];
              mkInitCall ((prefix +:+ "dense0_") +:+ "weight") i
                         [128; prod_shape rest]]
             ++ init_log σ2)
    ∧ (n = 0 → forward net x σ2 = (Raise ValueError, σ2)).
Proof.
  intros Hx Hk.
  set (a := next_id σ0).
  set (d0 := mkDense 128 None a (1 + a)).
  set (d1 := mkDense 64 None (2 + a) (3 + a)).
  set (d2 := mkDense 10 None (4 + a) (5 + a)).
  evar (σ1 : State T Rng).
  assert (Hc : MLP_init prefix σ0 = (Ok (mkMLP d0 d1 d2), σ1)).
  { unfold MLP_init, Dense_init, new_param.
    unfold mbind, M_bind, mret, M_ret. cbn. unfold σ1. reflexivity. }
  evar (σ2 : State T Rng).
  assert (Hi : for_params (λ p, Parameter_initialize p None i)
                 (collect_params d0 ++ collect_params d1 ++ collect_params d2)
                 σ1 = (Ok (), σ2)).
  { rewrite for_params_app.
    erewrite bind_Ok; cycle 1.
    { apply initialize_layer_unknown; cbn [weight bias heap];
        [heap_lookup|heap_lookup|key_neq
        |apply prod_shape_unknown|done|].
      apply prod_shape_known. by repeat constructor. }
    rewrite for_params_app.
    erewrite bind_Ok; cycle 1.
    { apply initialize_layer_unknown; cbn [weight bias heap];
        [heap_lookup|heap_lookup|key_neq
        |apply prod_shape_unknown|done|].
      apply prod_shape_known. by repeat constructor. }
    unfold σ2.
    apply initialize_layer_unknown; cbn [weight bias heap];
      [heap_lookup|heap_lookup|key_neq
      |apply prod_shape_unknown|done|].
    apply prod_shape_known. by repeat constructor. }
  exists (mkMLP d0 d1 d2), σ1, σ2. split_and!.
  - exact Hc.
  - exact Hi.
  - reflexivity.
  - cbn [dense0 dense1 dense2]. intros d Hd. rewrite !elem_of_cons in Hd.
    destruct Hd as [->|[->|[->|Hd]]]; [..|by apply elem_of_nil in Hd];
      (eexists; split; [heap_lookup|done]).
  - intros Hn.
    edestruct (Dense_forward_first d0 x σ2) as (y0 & E0 & Hy0);
      [heap_lookup|reflexivity|reflexivity|reflexivity
      |heap_lookup|reflexivity|reflexivity|reflexivity
      |key_neq|done|exact Hx|exact Hn|exact Hk|].
    set (σa := materialize (weight d0) _ _ σ2) in E0.
    edestruct (Dense_forward_first d1 (relu y0) σa) as (y1 & E1 & Hy1);
      [heap_lookup|reflexivity|reflexivity|reflexivity
      |heap_lookup|reflexivity|reflexivity|reflexivity
      |key_neq|done|exact Hy0|exact Hn
      |by apply prod_shape_known; repeat constructor|].
    set (σb := materialize (weight d1) _ _ σa) in E1.
    edestruct (Dense_forward_first d2 (relu y1) σb) as (y2 & E2 & Hy2);
      [heap_lookup|reflexivity|reflexivity|reflexivity
      |heap_lookup|reflexivity|reflexivity|reflexivity
      |key_neq|done|exact Hy1|exact Hn
      |by apply prod_shape_known; repeat constructor|].
    set (σc := materialize (weight d2) _ _ σb) in E2.
    exists y2, σc. split_and!.
    + cbn [forward MLP_Block]. rewrite MLP_forward_unfold.
      unfold __call__. cbn [forward Dense_Block dense0 dense1 dense2].
      rewrite E0, E1. exact E2.
    + exact Hy2.
    + unfold MLP_ready, layers_ready. cbn [dense0 dense1 dense2].
      split_and!; (eexists _, _; split;
                   (eexists; split; [heap_lookup|split; reflexivity])).
    + reflexivity.
  - intros ->. cbn [forward MLP_Block]. rewrite MLP_forward_unfold.
    unfold __call__ at 1. cbn [forward Dense_Block dense0].
    erewrite (Dense_forward_first_no_rows d0 x σ2);
      [reflexivity|heap_lookup|reflexivity|reflexivity|exact Hx].
Qed.

(** ** [net2] with the input sizes given *)

(** X11: the input sizes that the notebook gives to the layers of the
    second [net2] (784, 128, 64) fit together: once it is built and
    initialized, with no data seen, it accepts every input that has at
    least one row and whose rows are 784 long, returning one row of 10
    outputs per input row, and it raises the operator's shape error on
    every other input with a first dimension (no row, or rows of
    another length); the state stays as it is in both cases. *)
Theorem net2_accepts_rows_of_784 prefix i (σ0 : State T Rng) :
  ∃ (net2 : Sequential) σ1 σ2,
    net2_cell prefix σ0 = (Ok net2, σ1)
    ∧ initialize net2 i σ1 = (Ok (), σ2)
    ∧ (∀ x n rest, nd_shape x = n :: rest → n ≠ 0 →
         prod_shape rest = 784 →
         ∃ y, __call__ net2 x σ2 = (Ok y, σ2) ∧ nd_shape y = [n; 10])
    ∧ (∀ x, (∀ n rest, nd_shape x = n :: rest →
                       n = 0 ∨ prod_shape rest ≠ 784) →
         __call__ net2 x σ2 = (Raise MXNetError, σ2)).
Proof.
  set (a := next_id σ0).
  set (d0 := mkDense 128 (Some act_relu) a (1 + a)).
  set (d1 := mkDense 64 (Some act_relu) (2 + a) (3 + a)).
  set (d2 := mkDense 10 None (4 + a) (5 + a)).
  evar (σ1 : State T Rng).
  assert (Hc : net2_cell prefix σ0
               = (Ok (mkSequential [Child Dense _ d0; Child Dense _ d1;
                                    Child Dense _ d2]), σ1)).
  { unfold net2_cell, Dense_init, new_param, Sequential_add, register_child.
    unfold mbind, M_bind, mret, M_ret. cbn. unfold σ1. reflexivity. }
  evar (σ2 : State T Rng).
  assert (Hi : for_params (λ p, Parameter_initialize p None i)
                 (collect_params d0 ++ collect_params d1 ++ collect_params d2)
                 σ1 = (Ok (), σ2)).
  { rewrite for_params_app.
    erewrite bind_Ok; cycle 1.
    { apply initialize_layer_known; cbn [weight bias heap];
        [heap_lookup|heap_lookup|key_neq|..];
        apply prod_shape_known; by repeat constructor. }
    rewrite for_params_app.
    erewrite bind_Ok; cycle 1.
    { apply initialize_layer_known; cbn [weight bias heap];
        [heap_lookup|heap_lookup|key_neq|..];
        apply prod_shape_known; by repeat constructor. }
    unfold σ2.
    apply initialize_layer_known; cbn [weight bias heap];
      [heap_lookup|heap_lookup|key_neq|..];
      apply prod_shape_known; by repeat constructor. }
  assert (Hr : layers_ready d0 d1 d2 784 σ2).
  { split_and!; (eexists _, _; split;
                 (eexists; split; [heap_lookup|split; reflexivity])). }
  eexists _, σ1, σ2. split_and!.
  - exact Hc.
  - exact Hi.
  - intros x n rest Hx Hn Hk.
    destruct (layers_forward_ready _ _ _ id _ _ _ _ _ (λ _, eq_refl) Hr Hx
                Hn Hk) as (y0 & y1 & y & E0 & E1 & E2 & Hy).
    unfold id in E1, E2. exists y. split; [|exact Hy].
    unfold __call__ at 1. cbn [forward Sequential_Block].
    unfold Sequential_forward. cbn [_children].
    rewrite for_children_three. by rewrite E0, E1.
  - intros x Hx. destruct Hr as (H0' & _).
    unfold __call__ at 1. cbn [forward Sequential_Block].
    unfold Sequential_forward. cbn [_children].
    rewrite for_children_three. unfold __call__. cbn [forward Dense_Block].
    by rewrite (Dense_forward_wrong_size _ _ _ _ H0' Hx).
Qed.

(** ** The parameters of [net1] when it has been built *)

Lemma append_assoc (a b c : string) : (a +:+ b) +:+ c = a +:+ (b +:+ c).
Proof.
  induction a as [|ch a IH]; [done|].
  change (String ch ((a +:+ b) +:+ c) = String ch (a +:+ (b +:+ c))).
  by rewrite IH.
Qed.

(** X12: what [print(net1.collect_params())] shows once [net1] has been
    built: six parameters in the order of the layers, named after the
    prefix of the network, with the shapes (128,0), (128,), (64,0),
    (64,), (10,0), (10,), none of them initialized.  They are six
    different objects with six different names, and the parameters that
    existed before are as they were. *)
Theorem net1_parameters_when_built prefix (σ0 : State T Rng) :
  ∃ (net1 : Sequential) σ1,
    net1_cell prefix σ0 = (Ok net1, σ1)
    ∧ Forall2 (λ p '(suffix, sh, own),
                 heap σ1 !! p
                 = Some (mkParameter (prefix +:+ suffix) sh own true None None))
        (collect_params net1)
        [("dense0_weight", [128; 0], None); ("dense0_bias", [128], Some Zeros);
         ("dense1_weight", [64; 0], None); ("dense1_bias", [64], Some Zeros);
         ("dense2_weight", [10; 0], None); ("dense2_bias", [10], Some Zeros)]
    ∧ NoDup (collect_params net1)
    ∧ (∀ p q vp vq, p ∈ collect_params net1 → q ∈ collect_params net1 →
         heap σ1 !! p = Some vp → heap σ1 !! q = Some vq →
         name vp = name vq → p = q)
    ∧ (∀ p, p < next_id σ0 → heap σ1 !! p = heap σ0 !! p).
Proof.
  set (a := next_id σ0).
  evar (σ1 : State T Rng).
  assert (Hc : net1_cell prefix σ0
               = (Ok (mkSequential
                   [Child Dense _ (mkDense 128 (Some act_relu) a (1 + a));
                    Child Dense _ (mkDense 64 (Some act_relu) (2 + a) (3 + a));
                    Child Dense _ (mkDense 10 None (4 + a) (5 + a))]), σ1)).
  { unfold net1_cell, Dense_init, new_param, Sequential_add, register_child.
    unfold mbind, M_bind, mret, M_ret. cbn. unfold σ1. reflexivity. }
  assert (Hl : Forall2 (λ p '(suffix, sh, own),
                 heap σ1 !! p
                 = Some (mkParameter (prefix +:+ suffix) sh own true None None))
        [a; 1 + a; 2 + a; 3 + a; 4 + a; 5 + a]
        [("dense0_weight", [128; 0], None); ("dense0_bias", [128], Some Zeros);
         ("dense1_weight", [64; 0], None); ("dense1_bias", [64], Some Zeros);
         ("dense2_weight", [10; 0], None); ("dense2_bias", [10], Some Zeros)]).
  { repeat (constructor;
            [unfold σ1, a; cbn [heap Nat.add];
             repeat (rewrite lookup_insert_eq
                     || (rewrite lookup_insert_ne by lia));
             by rewrite append_assoc|]).
    constructor. }
  eexists _, σ1. split; [exact Hc|]. split; [exact Hl|].
  cbn [collect_params Sequential_Block _children map child_params concat
       Dense_Block weight bias app].
  split; [|split].
  - repeat (constructor;
            [rewrite ?elem_of_cons, elem_of_nil; unfold a; lia|]).
    constructor.
  - intros p q vp vq Hp Hq Hvp Hvq Hn.
    rewrite !elem_of_cons, elem_of_nil in Hp, Hq.
    repeat match goal with
           | H : Forall2 _ (_ :: _) (_ :: _) |- _ =>
               apply Forall2_cons in H as [? H]
           end.
    destruct Hp as [->|[->|[->|[->|[->|[->|[]]]]]]];
      destruct Hq as [->|[->|[->|[->|[->|[->|[]]]]]]]; try reflexivity;
      simplify_eq; cbn [name] in Hn; apply (inj _) in Hn; discriminate.
  - intros p Hp. unfold σ1. cbn [heap].
    by rewrite !lookup_insert_ne by (unfold a; lia).
Qed.

(** ** Calling a network again *)

Lemma Parameter_data_Ok_inv p σ (w : NDArray T) σ' :
  Parameter_data p σ = (Ok w, σ') →
  σ' = σ ∧ materialized σ p (nd_shape w) (nd_data w).
Proof.
  unfold Parameter_data, mbind, M_bind, get_param.
  destruct (heap σ !! p) as [v|] eqn:E; [|discriminate].
  destruct (_data v) as [d|] eqn:Ed; [|by destruct (_deferred_init v)].
  intros [= <- <-]. split; [done|]. by exists v.
Qed.

Lemma Dense_params_Ok_inv (self : Dense) σ (w b : NDArray T) σ' :
  Dense_params self σ = (Ok (w, b), σ') →
  σ' = σ ∧ materialized σ (weight self) (nd_shape w) (nd_data w)
  ∧ materialized σ (bias self) (nd_shape b) (nd_data b).
Proof.
  unfold Dense_params. intros Hp.
  apply bind_Ok_inv in Hp as (w' & σ1 & Hw & Hp).
  apply bind_Ok_inv in Hp as (b' & σ2 & Hb & Hp).
  injection Hp as -> -> <-.
  apply Parameter_data_Ok_inv in Hw as [-> Hw].
  by apply Parameter_data_Ok_inv in Hb as [-> Hb].
Qed.

(** A layer that has returned has both parameters materialized, and its
    output is the layer's function of them. *)
Lemma Dense_forward_settles (self : Dense) x σ y σ' :
  Dense_forward self x σ = (Ok y, σ') →
  ∃ w b, materialized σ' (weight self) (nd_shape w) (nd_data w)
         ∧ materialized σ' (bias self) (nd_shape b) (nd_data b)
         ∧ Dense_hybrid_forward self x w b = Ok y.
Proof.
  unfold Dense_forward. intros Hf.
  apply bind_Ok_inv in Hf as ([w b] & σ1 & Hp & Hf).
  injection Hf as Hy <-. exists w, b.
  assert (Hd : ∃ σ0, Dense_params self σ0 = (Ok (w, b), σ1)).
  { unfold try_except_deferred in Hp.
    destruct (Dense_params self σ) as [[wb|e] σ0] eqn:E.
    - exists σ. by rewrite E, <- Hp.
    - assert (e = DeferredInitializationError) as ->
        by (by destruct e).
      apply bind_Ok_inv in Hp as (? & σa & _ & Hp).
      apply bind_Ok_inv in Hp as (? & σb & _ & Hp). by exists σb. }
  destruct Hd as (σ0 & Hd).
  by apply Dense_params_Ok_inv in Hd as (-> & Hw & Hb).
Qed.

Lemma materialized_frame ps σ σ' p sh (d : list T) :
  only_touches ps σ σ' → p ∉ ps → materialized σ p sh d →
  materialized σ' p sh d.
Proof.
  intros [_ Hh] Hp (v & Hv & Hs & Hd). exists v. by rewrite Hh.
Qed.

Lemma Dense_forward_settled (self : Dense) x σ (w b : NDArray T) :
  materialized σ (weight self) (nd_shape w) (nd_data w) →
  materialized σ (bias self) (nd_shape b) (nd_data b) →
  Dense_forward self x σ = (Dense_hybrid_forward self x w b, σ).
Proof.
  intros Hw Hb. rewrite (Dense_forward_materialized _ _ _ _ _ _ _ Hw Hb).
  by destruct w, b.
Qed.

(** X13: a call of the [MLP] that has returned can be repeated: on the
    state it left, the same input gives the same output and the state
    stays as it is, provided the three layers hold six different
    parameters. *)
Theorem MLP_forward_repeatable (self : MLP) x σ y σ' :
  NoDup (collect_params self) →
  forward self x σ = (Ok y, σ') →
  forward self x σ' = (Ok y, σ').
Proof.
  cbn [forward collect_params MLP_Block Dense_Block app].
  intros Hnd Hf. rewrite MLP_forward_unfold in Hf |- *.
  destruct (__call__ (dense0 self) x σ) as [[y0|e] σa] eqn:E0;
    [|discriminate].
  destruct (__call__ (dense1 self) (relu y0) σa) as [[y1|e] σb] eqn:E1;
    [|discriminate].
  unfold __call__ in *. cbn [forward Dense_Block] in *.
  pose proof (touches_Dense_forward _ _ _ _ _ E1) as T1.
  pose proof (touches_Dense_forward _ _ _ _ _ Hf) as T2.
  apply Dense_forward_settles in E0 as (w0 & b0 & Hw0 & Hb0 & Hy0).
  apply Dense_forward_settles in E1 as (w1 & b1 & Hw1 & Hb1 & Hy1).
  apply Dense_forward_settles in Hf as (w2 & b2 & Hw2 & Hb2 & Hy2).
  repeat match goal with
         | Hn : NoDup (_ :: _) |- _ =>
             apply NoDup_cons in Hn as [? Hn]
         end.
  repeat match goal with
         | Hn : _ ∉ _ :: _ |- _ => apply not_elem_of_cons in Hn as [? Hn]
         end.
  assert (Hin : ∀ p a b : nat, p ≠ a → p ≠ b → p ∉ [a; b]).
  { intros p a b ? ? Hp. apply elem_of_cons in Hp as [->|Hp]; [done|].
    apply elem_of_cons in Hp as [->|Hp]; [done|].
    by apply elem_of_nil in Hp. }
  eapply (materialized_frame _ _ _ _ _ _ T1) in Hw0; [|by apply Hin].
  eapply (materialized_frame _ _ _ _ _ _ T1) in Hb0; [|by apply Hin].
  eapply (materialized_frame _ _ _ _ _ _ T2) in Hw0; [|by apply Hin].
  eapply (materialized_frame _ _ _ _ _ _ T2) in Hb0; [|by apply Hin].
  eapply (materialized_frame _ _ _ _ _ _ T2) in Hw1; [|by apply Hin].
  eapply (materialized_frame _ _ _ _ _ _ T2) in Hb1; [|by apply Hin].
  rewrite (Dense_forward_settled _ _ _ _ _ Hw0 Hb0), Hy0.
  rewrite (Dense_forward_settled _ _ _ _ _ Hw1 Hb1), Hy1.
  by rewrite (Dense_forward_settled _ _ _ _ _ Hw2 Hb2), Hy2.
Qed.

(** ** A [Sequential] of any number of [Dense] layers *)

Lemma Dense_init_eq units activation in_units prefix σ :
  Dense_init units activation in_units prefix σ
  = (Ok (mkDense units activation (next_id σ) (S (next_id σ))),
     mkState
       (<[S (next_id σ) := mkParameter (prefix +:+ "bias") [units]
                              (Some Zeros) true None None]>
          (<[next_id σ := mkParameter (prefix +:+ "weight")
                            [units; in_units] None true None None]>
             (heap σ)))
       (S (S (next_id σ))) (rng σ) (init_log σ)).
Proof. reflexivity. Qed.

Lemma Dense_children_params (ds : list Dense) :
  collect_params (mkSequential (Child Dense _ <$> ds))
  = ds ≫= collect_params.
Proof.
  cbn [collect_params Sequential_Block _children].
  induction ds as [|d ds IH]; [done|].
  rewrite fmap_cons, bind_cons. cbn [map concat child_params]. by rewrite IH.
Qed.

Lemma Dense_created_frame ps σ σ' (d : Dense) :
  only_touches ps σ σ' → weight d ∉ ps → bias d ∉ ps →
  Dense_created σ d → Dense_created σ' d.
Proof.
  intros [_ Hh] Hw Hb (nw & nb & Ew & Eb). exists nw, nb.
  by rewrite !Hh.
Qed.

Lemma Dense_noted_frame ps i σ σ' (d : Dense) :
  only_touches ps σ σ' → weight d ∉ ps → bias d ∉ ps →
  Dense_noted i σ d → Dense_noted i σ' d.
Proof.
  intros [_ Hh] Hw Hb (nw & nb & Ew & Eb). exists nw, nb.
  by rewrite !Hh.
Qed.

Lemma Dense_ready_frame ps k σ σ' (d : Dense) :
  only_touches ps σ σ' → weight d ∉ ps → bias d ∉ ps →
  Dense_ready d k σ → Dense_ready d k σ'.
Proof.
  intros [_ Hh] Hw Hb (dw & db & (vw & Ew & ?) & (vb & Eb & ?)).
  exists dw, db. split; [exists vw|exists vb]; by rewrite Hh.
Qed.

(** The layers that the cell creates are new and different objects. *)
Lemma add_Dense_layers_eq prefix layers :
  ∀ j (net : Sequential) σ,
    ∃ (ds : list Dense) σ1,
      add_Dense_layers prefix j layers net σ
      = (Ok (mkSequential (_children net ++ (Child Dense _ <$> ds))), σ1)
      ∧ (λ d, (_units d, act d)) <$> ds = layers
      ∧ Forall (Dense_created σ1) ds
      ∧ NoDup (ds ≫= collect_params)
      ∧ (∀ p, p ∈ (ds ≫= collect_params) → next_id σ ≤ p)
      ∧ (∀ p, p < next_id σ → heap σ1 !! p = heap σ !! p)
      ∧ rng σ1 = rng σ ∧ init_log σ1 = init_log σ.
Proof.
  induction layers as [|[u a] layers IH]; intros j net σ.
  - exists [], σ. cbn [add_Dense_layers fmap list_fmap].
    rewrite app_nil_r. destruct net as [cs]. split; [done|].
    split_and!; try done; [constructor|intros p Hp; by apply elem_of_nil in Hp].
  - cbn [add_Dense_layers]. rewrite (bind_Ok _ _ _ _ _ (Dense_init_eq _ _ _ _ _)).
    set (d := mkDense u a (next_id σ) (S (next_id σ))).
    set (σ' := mkState _ _ _ _).
    destruct (IH (S j) (Sequential_add net d) σ')
      as (ds & σ1 & E & Hl & Hc & Hnd & Hge & Hfr & Hrng & Hlog).
    exists (d :: ds), σ1. rewrite E.
    unfold Sequential_add, register_child. cbn [_children].
    rewrite <- app_assoc. split; [done|].
    change (next_id σ') with (S (S (next_id σ))) in Hge, Hfr. split_and!.
    + rewrite fmap_cons. by rewrite Hl.
    + constructor; [|done]. eexists _, _. cbn [weight bias _units d].
      rewrite !Hfr by lia. unfold σ'. cbn [heap].
      rewrite lookup_insert_eq.
      rewrite lookup_insert_ne by lia. by rewrite lookup_insert_eq.
    + rewrite bind_cons. cbn [collect_params Dense_Block weight bias d app].
      apply NoDup_cons. split.
      { rewrite elem_of_cons. intros [?|Hp]; [lia|]. apply Hge in Hp. lia. }
      apply NoDup_cons. split; [|done]. intros Hp. apply Hge in Hp. lia.
    + intros p. rewrite bind_cons.
      cbn [collect_params Dense_Block weight bias d app].
      rewrite !elem_of_cons. intros [->|[->|Hp]]; [lia|lia|].
      apply Hge in Hp. lia.
    + intros p Hp. rewrite Hfr by lia. unfold σ'. cbn [heap].
      by rewrite !lookup_insert_ne by lia.
    + by rewrite Hrng.
    + by rewrite Hlog.
Qed.

Lemma net1_cell_is_Sequential_cell prefix σ :
  net1_cell prefix σ
  = Sequential_cell prefix
      [(128, Some act_relu); (64, Some act_relu); (10, None)] σ.
Proof. reflexivity. Qed.

Lemma only_touches_mono ps qs σ σ' :
  (∀ p, p ∈ ps → p ∈ qs) → only_touches ps σ σ' → only_touches qs σ σ'.
Proof.
  intros Hsub [Hn Hh]. split; [done|].
  intros p Hp. apply Hh. intros Hin. by apply Hp, Hsub.
Qed.

Lemma Dense_params_elem (d : Dense) (ds : list Dense) :
  d ∈ ds →
  weight d ∈ (ds ≫= collect_params) ∧ bias d ∈ (ds ≫= collect_params).
Proof.
  intros Hd. split; apply list_elem_of_bind; exists d; (split; [|done]);
    cbn [collect_params Dense_Block]; rewrite !elem_of_cons; auto.
Qed.

(** The parameters of the first layer are not among those of the
    others. *)
Lemma NoDup_Dense_params (d : Dense) (ds : list Dense) :
  NoDup ((d :: ds) ≫= collect_params) →
  weight d ≠ bias d
  ∧ NoDup (ds ≫= collect_params)
  ∧ (∀ d', d' ∈ ds → (weight d' ∉ [weight d; bias d])
                     ∧ (bias d' ∉ [weight d; bias d]))
  ∧ (weight d ∉ (ds ≫= collect_params))
  ∧ (bias d ∉ (ds ≫= collect_params)).
Proof.
  rewrite bind_cons. intros Hnd.
  change (NoDup (weight d :: bias d :: (ds ≫= collect_params))) in Hnd.
  apply NoDup_cons in Hnd as [Hw Hnd].
  apply NoDup_cons in Hnd as [Hb Hnd].
  apply not_elem_of_cons in Hw as [Hwb Hw].
  split_and!; [done|done| |done|done].
  intros d' Hd'. destruct (Dense_params_elem _ _ Hd') as [Hw' Hb'].
  rewrite !not_elem_of_cons.
  split_and!; try apply not_elem_of_nil; intros Heq; congruence.
Qed.

Lemma logged_cons (σ : State T Rng) i p ps v before :
  heap σ !! p = Some v →
  logged σ i ps (mkInitCall (name v) i (shape v) :: before) →
  logged σ i (p :: ps) before.
Proof.
  intros Hv (calls & Hc & Hl).
  exists (mkInitCall (name v) i (shape v) :: calls). split.
  - constructor; [by exists v|done].
  - rewrite reverse_cons, <- app_assoc. exact Hl.
Qed.

(** [initialize] on layers that have just been created without
    [in_units]. *)
Lemma initialize_created i (ds : list Dense) :
  ∀ σ,
    NoDup (ds ≫= collect_params) → Forall (Dense_created σ) ds →
    Forall (λ d, _units d ≠ 0) ds →
    ∃ σ2,
      for_params (λ p, Parameter_initialize p None i)
        (ds ≫= collect_params) σ = (Ok (), σ2)
      ∧ Forall (Dense_noted i σ2) ds
      ∧ only_touches (ds ≫= collect_params) σ σ2
      ∧ rng σ2 = rng σ
      ∧ logged σ2 Zeros (bias <$> ds) (init_log σ).
Proof.
  induction ds as [|d ds IH]; intros σ Hnd Hc Hu.
  - exists σ. split_and!; [done|constructor|apply only_touches_refl|done|].
    exists []. split; [constructor|done].
  - apply NoDup_Dense_params in Hnd as (Hwb & Hnd & Hdis & Hw & Hb).
    apply Forall_cons in Hc as [(nw & nb & Ew & Eb) Hc].
    apply Forall_cons in Hu as [Hu0 Hu].
    set (vw := mkParameter nw [_units d; 0] None true None None) in Ew.
    set (vb := mkParameter nb [_units d] (Some Zeros) true None None) in Eb.
    set (σ' := materialize (bias d) vb Zeros (note (weight d) vw i σ)).
    assert (E : for_params (λ p, Parameter_initialize p None i)
                  (collect_params d) σ = (Ok (), σ')).
    { apply (initialize_layer_unknown σ d vw vb i Ew Eb Hwb);
        [apply prod_shape_unknown|done|].
      apply prod_shape_known. by repeat constructor. }
    assert (Ht : only_touches (collect_params d) σ σ').
    { exact (touches_for_params _ _ _
               (λ q Hq, touches_Parameter_initialize _ q None i Hq)
               _ _ _ E). }
    assert (Ew' : heap σ' !! weight d
                  = Some (mkParameter nw [_units d; 0] None true None
                            (Some i))).
    { unfold σ'. rewrite lookup_materialize_ne by done.
      by rewrite lookup_note_eq. }
    assert (Eb' : heap σ' !! bias d
                  = Some (mkParameter nb [_units d] (Some Zeros) true
                            (Some (replicate (_units d) zero)) None)).
    { unfold σ'. rewrite lookup_materialize_eq. cbn [draw fst vb shape].
      by rewrite prod_shape_one. }
    destruct (IH σ' Hnd) as (σ2 & E2 & Hno & Ht2 & Hrng & Hlog); [|done|].
    { apply Forall_forall. intros d' Hd'.
      destruct (Hdis d' Hd') as [Hw' Hb'].
      apply (Dense_created_frame _ _ _ _ Ht Hw' Hb').
      by apply (proj1 (Forall_forall _ _) Hc). }
    rewrite <- (proj2 Ht2 _ Hw) in Ew'. rewrite <- (proj2 Ht2 _ Hb) in Eb'.
    exists σ2. split_and!.
    + rewrite bind_cons, for_params_app.
      by rewrite (bind_Ok _ _ _ _ _ E).
    + constructor; [by exists nw, nb|done].
    + rewrite bind_cons.
      eapply only_touches_trans; eapply only_touches_mono; try eassumption;
        intros p Hp; apply elem_of_app; auto.
    + by rewrite Hrng.
    + rewrite fmap_cons. apply (logged_cons _ _ _ _ _ _ Eb'). exact Hlog.
Qed.

(** The first forward pass through layers that are noted, on an input
    with at least one row of non-zero length. *)
Lemma first_forward_noted i (ds : list Dense) :
  ∀ σ x n rest,
    NoDup (ds ≫= collect_params) → Forall (Dense_noted i σ) ds →
    Forall (λ d, _units d ≠ 0) ds →
    nd_shape x = n :: rest → n ≠ 0 → prod_shape rest ≠ 0 →
    ∃ y σ3,
      for_children (Child Dense _ <$> ds) x σ = (Ok y, σ3)
      ∧ nd_shape y = n :: match last (_units <$> ds) with
                          | Some u => [u]
                          | None => rest
                          end
      ∧ chain_ready σ3 (prod_shape rest) ds
      ∧ only_touches (ds ≫= collect_params) σ σ3
      ∧ logged σ3 i (weight <$> ds) (init_log σ).
Proof.
  induction ds as [|d ds IH]; intros σ x n rest Hnd Hno Hu Hx Hn Hk.
  - exists x, σ. split_and!; [done|done|done|apply only_touches_refl|].
    exists []. split; [constructor|done].
  - apply NoDup_Dense_params in Hnd as (Hwb & Hnd & Hdis & Hw & Hb).
    apply Forall_cons in Hno as [(nw & nb & Ew & Eb) Hno].
    apply Forall_cons in Hu as [Hu0 Hu].
    set (vw := mkParameter nw [_units d; 0] None true None (Some i)) in Ew.
    set (vb := mkParameter nb [_units d] (Some Zeros) true
                 (Some (replicate (_units d) zero)) None) in Eb.
    set (sh := [_units d; prod_shape rest]).
    destruct (Dense_forward_first d x σ vw vb _ i n rest Ew eq_refl eq_refl
                eq_refl Eb eq_refl eq_refl eq_refl Hwb Hu0 Hx Hn Hk)
      as (y0 & E0 & Hy0).
    fold sh in E0.
    set (σa := materialize (weight d) (set_shape vw sh) i σ) in E0.
    assert (Ht : only_touches (collect_params d) σ σa)
      by exact (touches_Dense_forward d x _ _ _ E0).
    assert (Ewa : heap σa !! weight d
                  = Some (set_data (set_deferred_init (set_shape vw sh) None)
                            (draw i sh (rng σ)).1))
      by apply lookup_materialize_eq.
    assert (Eba : heap σa !! bias d = Some vb).
    { unfold σa. by rewrite lookup_materialize_ne. }
    destruct (IH σa y0 n [_units d] Hnd)
      as (y & σ3 & E & Hy & Hr & Ht3 & Hlog);
      [|done|done|done|by rewrite prod_shape_one|].
    { apply Forall_forall. intros d' Hd'.
      destruct (Hdis d' Hd') as [Hw' Hb'].
      apply (Dense_noted_frame _ _ _ _ _ Ht Hw' Hb').
      by apply (proj1 (Forall_forall _ _) Hno). }
    rewrite prod_shape_one in Hr.
    rewrite <- (proj2 Ht3 _ Hw) in Ewa. rewrite <- (proj2 Ht3 _ Hb) in Eba.
    exists y, σ3. split_and!.
    + rewrite fmap_cons. unfold for_children. cbn [for_blocks child_call].
      unfold __call__ at 1. cbn [forward Dense_Block].
      rewrite (bind_Ok _ _ _ _ _ E0). exact E.
    + rewrite Hy, fmap_cons, last_cons. by destruct (last (_units <$> ds)).
    + cbn [chain_ready]. split; [|done]. eexists _, _. split.
      * eexists. split; [exact Ewa|]. by split.
      * eexists. split; [exact Eba|]. by split.
    + rewrite bind_cons.
      eapply only_touches_trans; eapply only_touches_mono; try eassumption;
        intros p Hp; apply elem_of_app; auto.
    + rewrite fmap_cons. apply (logged_cons _ _ _ _ _ _ Ewa). exact Hlog.
Qed.

(** C2, as amended: a [Sequential] network of any number of [Dense]
    layers, each with at least one unit and created without [in_units],
    is built, and [collect_params().initialize(i)] runs.  After that no
    weight is materialized: each keeps its shape [(units, 0)] and only
    has [i] noted; no random number has been drawn, and the only calls
    of an initializer are those of ['zeros'] on the biases, whose shape
    [(units,)] is known from the construction and which hold zeros at
    once.  The first forward pass on an input with at least one row, of
    non-zero length, returns; after it every layer is materialized, the
    first for the length of the input rows and each other one for the
    units of the layer before, and during it [i] has been called once on
    each weight, in the order of the layers, with the shape inferred.
    An input without rows is no such input: on it the call raises
    [ValueError] and leaves the state, with every weight still
    deferred, as it is. *)
Theorem weights_deferred_until_forward prefix
    (layers : list (nat * option act_type)) i (σ0 : State T Rng)
    x n rest :
  Forall (λ l, l.1 ≠ 0) layers →
  nd_shape x = n :: rest → n ≠ 0 → prod_shape rest ≠ 0 →
  ∃ (ds : list Dense) σ1 σ2 y σ3,
    let net := mkSequential (Child Dense _ <$> ds) in
    Sequential_cell prefix layers σ0 = (Ok net, σ1)
    ∧ (λ d, (_units d, act d)) <$> ds = layers
    ∧ Forall (Dense_created σ1) ds
    ∧ ParameterDict_initialize (collect_params net) i σ1 = (Ok (), σ2)
    ∧ (∀ d, d ∈ ds →
         deferred σ2 (weight d) [_units d; 0] i
         ∧ materialized σ2 (bias d) [_units d] (replicate (_units d) zero))
    ∧ rng σ2 = rng σ0
    ∧ logged σ2 Zeros (bias <$> ds) (init_log σ0)
    ∧ __call__ net x σ2 = (Ok y, σ3)
    ∧ nd_shape y = n :: match last (fst <$> layers) with
                        | Some u => [u]
                        | None => rest
                        end
    ∧ chain_ready σ3 (prod_shape rest) ds
    ∧ logged σ3 i (weight <$> ds) (init_log σ2)
    ∧ (∀ x0 rest0, layers ≠ [] → nd_shape x0 = 0 :: rest0 →
         __call__ net x0 σ2 = (Raise ValueError, σ2)).
Proof.
  intros Hu Hx Hn Hk.
  destruct (add_Dense_layers_eq prefix layers 0 (mkSequential []) σ0)
    as (ds & σ1 & Hc & Hl & Hcr & Hnd & _ & _ & Hrng1 & Hlog1).
  assert (Hu' : Forall (λ d, _units d ≠ 0) ds).
  { apply Forall_forall. intros d Hd. rewrite <- Hl in Hu.
    apply (proj1 (Forall_forall _ _) Hu (_units d, act d)).
    by apply (list_elem_of_fmap_2 (λ d, (_units d, act d))). }
  destruct (initialize_created i ds σ1 Hnd Hcr Hu')
    as (σ2 & Hi & Hno & _ & Hrng2 & Hlog2).
  destruct (first_forward_noted i ds σ2 x n rest Hnd Hno Hu' Hx Hn Hk)
    as (y & σ3 & Hf & Hy & Hr & _ & Hlog3).
  exists ds, σ1, σ2, y, σ3. cbn zeta. split_and!.
  - exact Hc.
  - exact Hl.
  - exact Hcr.
  - unfold ParameterDict_initialize. by rewrite Dense_children_params.
  - intros d Hd.
    destruct (proj1 (Forall_forall _ _) Hno d Hd) as (nw & nb & Ew & Eb).
    split; eexists; (split; [eassumption|done]).
  - by rewrite Hrng2.
  - by rewrite <- Hlog1.
  - exact Hf.
  - rewrite Hy, <- Hl, <- list_fmap_compose. reflexivity.
  - exact Hr.
  - exact Hlog3.
  - intros x0 rest0 Hne Hx0. destruct ds as [|d ds']; [by subst layers|].
    apply Forall_cons in Hno as [(nw & nb & Ew & _) _].
    unfold __call__ at 1. cbn [forward Sequential_Block].
    unfold Sequential_forward. cbn [_children]. rewrite fmap_cons.
    unfold for_children. cbn [for_blocks child_call].
    erewrite bind_Raise; [reflexivity|].
    unfold __call__. cbn [forward Dense_Block].
    by apply (Dense_forward_first_no_rows d x0 σ2 _ i rest0 Ew).
Qed.

End Theory.

(** * The model at work *)

Lemma net1_initialized_run :
  net1_initialized fresh = (Ok net1_value, net1_noted_state).
Proof.
  unfold net1_initialized.
  rewrite (bind_Ok _ _ fresh net1_value (net1_cell "sequential0_" fresh).2)
    by reflexivity.
  rewrite (bind_Ok _ _ _ () net1_noted_state) by (vm_compute; reflexivity).
  reflexivity.
Qed.

Lemma MLP_initialized_run :
  MLP_initialized fresh = (Ok MLP_value, MLP_noted_state).
Proof.
  unfold MLP_initialized.
  rewrite (bind_Ok _ _ fresh MLP_value (MLP_init "mlp0_" fresh).2)
    by reflexivity.
  rewrite (bind_Ok _ _ _ () MLP_noted_state) by (vm_compute; reflexivity).
  reflexivity.
Qed.

Lemma net1_first_forward :
  ∃ y, __call__ net1_value picture net1_noted_state = (Ok y, net1_state).
Proof. eexists. vm_compute. reflexivity. Qed.

Lemma MLP_first_forward :
  ∃ y, forward MLP_value picture MLP_noted_state = (Ok y, MLP_state).
Proof. eexists. vm_compute. reflexivity. Qed.

Lemma net1_used_run : net1_used fresh = (Ok net1_value, net1_state).
Proof.
  unfold net1_used. rewrite (bind_Ok _ _ _ _ _ net1_initialized_run).
  destruct net1_first_forward as [y Hy].
  by rewrite (bind_Ok _ _ _ _ _ Hy).
Qed.

Lemma MLP_used_run : MLP_used fresh = (Ok MLP_value, MLP_state).
Proof.
  unfold MLP_used. rewrite (bind_Ok _ _ _ _ _ MLP_initialized_run).
  destruct MLP_first_forward as [y Hy].
  by rewrite (bind_Ok _ _ _ _ _ Hy).
Qed.

Lemma fresh_same_values :
  same_values net1_state MLP_state (collect_params net1_value)
              (collect_params MLP_value).
Proof.
  repeat (constructor;
          [eexists _, _; split;
             (eexists; split; [reflexivity|split; reflexivity])|]).
  constructor.
Qed.

(** Witness of C1: both networks, after a first forward pass each in a
    kernel of its own with the same generator, hold equal values, and
    return the same on the picture. *)
Lemma net1_MLP_same_function_witness :
  net1_cell "sequential0_" fresh = (Ok net1_value, (net1_cell "sequential0_" fresh).2)
  ∧ MLP_init "mlp0_" fresh = (Ok MLP_value, (MLP_init "mlp0_" fresh).2)
  ∧ same_values net1_state MLP_state (collect_params net1_value)
                (collect_params MLP_value)
  ∧ ∃ r, __call__ net1_value picture net1_state = (r, net1_state)
         ∧ __call__ MLP_value picture MLP_state = (r, MLP_state).
Proof.
  split; [reflexivity|]. split; [reflexivity|]. split; [exact fresh_same_values|].
  exact (net1_MLP_same_function "sequential0_" "mlp0_" fresh _ fresh _
           net1_value MLP_value net1_state MLP_state picture
           eq_refl eq_refl fresh_same_values).
Defined.

(** Counterexample to C2 as stated: in a kernel that has just started,
    after [net1] is built and [collect_params().initialize(xavier)] has
    run, with no forward pass made, a parameter of [net1] is
    materialized (the bias of the first layer, 128 zeros), and three
    calls of an initializer have been made. *)
Lemma initialize_materializes_biases :
  net1_initialized fresh = (Ok net1_value, net1_noted_state)
  ∧ ¬ (∀ p sh d, p ∈ collect_params net1_value
                 → ¬ materialized net1_noted_state p sh d)
  ∧ init_log net1_noted_state
    = [mkInitCall "sequential0_dense2_bias" Zeros [10];
       mkInitCall "sequential0_dense1_bias" Zeros [64];
       mkInitCall "sequential0_dense0_bias" Zeros [128]].
Proof.
  split; [exact net1_initialized_run|]. split; [|reflexivity].
  intros Hnone. apply (Hnone 1 [128] (replicate 128 0%Z)).
  - apply (list_elem_of_lookup_2 _ 1). reflexivity.
  - eexists. split; [reflexivity|]. split; reflexivity.
Qed.

(** Witness of C2 as amended: [net1] is the cell for the layers
    (128, relu), (64, relu), (10, none), and the input is the picture. *)
Lemma weights_deferred_until_forward_witness :
  Forall (λ l : nat * option act_type, l.1 ≠ 0)
    [(128, Some act_relu); (64, Some act_relu); (10, None)]
  ∧ nd_shape picture = 1 :: [2; 2]
  ∧ 1 ≠ 0
  ∧ prod_shape [2; 2] ≠ 0
  ∧ net1_cell "sequential0_" fresh
    = Sequential_cell "sequential0_"
        [(128, Some act_relu); (64, Some act_relu); (10, None)] fresh
  ∧ ∃ (ds : list Dense) (σ1 σ2 : State Z Z) y σ3,
      let net1 := mkSequential (Child Dense _ <$> ds) in
      net1_cell "sequential0_" fresh = (Ok net1, σ1)
      ∧ ParameterDict_initialize (collect_params net1) xavier σ1 = (Ok (), σ2)
      ∧ (∀ d, d ∈ ds → deferred σ2 (weight d) [_units d; 0] xavier)
      ∧ rng σ2 = 0%Z
      ∧ __call__ net1 picture σ2 = (Ok y, σ3)
      ∧ nd_shape y = [1; 10]
      ∧ chain_ready σ3 4 ds.
Proof.
  assert (Hu : Forall (λ l : nat * option act_type, l.1 ≠ 0)
                 [(128, Some act_relu); (64, Some act_relu); (10, None)])
    by (repeat constructor; discriminate).
  assert (Hn : 1 ≠ 0) by discriminate.
  assert (Hk : prod_shape [2; 2] ≠ 0) by (by cbv).
  split; [exact Hu|]. split; [reflexivity|]. split; [exact Hn|].
  split; [exact Hk|]. split; [reflexivity|].
  destruct (weights_deferred_until_forward "sequential0_"
              [(128, Some act_relu); (64, Some act_relu); (10, None)]
              xavier fresh picture 1 [2; 2] Hu eq_refl Hn Hk)
    as (ds & σ1 & σ2 & y & σ3 & Hc & _ & _ & Hi & Hd & Hr & _ & Hf & Hy
        & Hm & _).
  exists ds, σ1, σ2, y, σ3. cbn zeta.
  split_and!; [exact Hc|exact Hi| |exact Hr|exact Hf|exact Hy|exact Hm].
  intros d Hd'. exact (proj1 (Hd d Hd')).
Defined.

Lemma ramp_length n z : length (ramp n z) = n.
Proof.
  revert z. induction n as [|n IH]; intros z; cbn; [done|].
  by rewrite IH.
Qed.

(** An instance of C3: in a kernel that has just started, with the
    generator of the model, which writes as many numbers as the shape
    asks for, every array of [net2] is as long as its shape says after
    [initialize]. *)
Lemma net2_initialized_before_data_witness :
  (∀ j sh g, length (sample (T:=Z) (Rng:=Z) j sh g).1 = prod_shape sh)
  ∧ ∃ (net2 : Sequential Z Z) (σ1 σ2 : State Z Z),
      net2_cell "sequential1_" fresh = (Ok net2, σ1)
      ∧ ParameterDict_initialize (collect_params net2) xavier σ1 = (Ok (), σ2)
      ∧ Forall (λ p, ∃ v d, heap σ2 !! p = Some v ∧ _data v = Some d
                            ∧ length d = prod_shape (shape v))
               (collect_params net2).
Proof.
  assert (Hs : ∀ j sh g, length (sample (T:=Z) (Rng:=Z) j sh g).1
                         = prod_shape sh)
    by (intros j sh g; apply ramp_length).
  split; [exact Hs|].
  destruct (net2_initialized_before_data "sequential1_" xavier fresh)
    as (net2 & σ1 & σ2 & Hc & _ & _ & Hi & _ & Hl & _).
  exists net2, σ1, σ2. split_and!; [exact Hc|exact Hi|exact (Hl Hs)].
Defined.

(** Counterexample to C6 as stated: [net2 = MLP()] followed by
    [net2.initialize(ctx=ctx)] and a first [forward] on the picture, as
    in the notebook.  Before the pass the weight of [dense0] has no
    array and the shape [(128, 0)]; after it, it holds a [128 x 4]
    array: [forward] has changed a parameter of the network. *)
Lemma MLP_forward_materializes_weights :
  MLP_initialized fresh = (Ok MLP_value, MLP_noted_state)
  ∧ (∃ y, forward MLP_value picture MLP_noted_state = (Ok y, MLP_state))
  ∧ deferred MLP_noted_state (weight (dense0 MLP_value)) [128; 0] Uniform
  ∧ (∃ dw, materialized MLP_state (weight (dense0 MLP_value)) [128; 4] dw)
  ∧ (forward MLP_value picture MLP_noted_state).2 ≠ MLP_noted_state.
Proof.
  split; [exact MLP_initialized_run|]. split; [exact MLP_first_forward|].
  split; [eexists; split; [reflexivity|]; split_and!; reflexivity|].
  split; [eexists _, _; split; [reflexivity|]; split; reflexivity|].
  destruct MLP_first_forward as [y ->]. cbn [snd]. intros Heq.
  apply (f_equal (λ s, _data <$> heap s !! 0)) in Heq.
  vm_compute in Heq. discriminate.
Qed.
Lemma MLP_state_same_values :
  same_values MLP_state MLP_state (collect_params MLP_value)
              (collect_params MLP_value).
Proof.
  repeat (constructor;
          [eexists _, _; split;
             (eexists; split; [reflexivity|split; reflexivity])|]).
  constructor.
Qed.

(** Witness of C6 as amended: once materialized, a forward pass leaves
    the state as it is. *)
Lemma MLP_forward_frame_witness :
  same_values MLP_state MLP_state (collect_params MLP_value)
              (collect_params MLP_value)
  ∧ ∃ r, forward MLP_value picture MLP_state = (r, MLP_state)
         ∧ forward MLP_value picture MLP_state = (r, MLP_state).
Proof.
  split; [exact MLP_state_same_values|].
  exact (MLP_forward_frame MLP_value MLP_state MLP_state picture
           MLP_state_same_values).
Defined.

(** Witness of C9: the [MLP] on one picture returns [1 x 10]. *)
Lemma output_shape_n_by_10_witness :
  nd_shape picture = 1 :: [2; 2]
  ∧ MLP_init "mlp0_" fresh = (Ok MLP_value, (MLP_init "mlp0_" fresh).2)
  ∧ ∃ y, __call__ MLP_value picture MLP_state = (Ok y, MLP_state)
         ∧ nd_shape y = [1; 10].
Proof.
  split; [reflexivity|]. split; [reflexivity|].
  eexists. split; [vm_compute; reflexivity|].
  eapply (proj1 (output_shape_n_by_10 "mlp0_" fresh _ picture _
                   MLP_state MLP_state 1 [2; 2] eq_refl) MLP_value);
    [reflexivity|vm_compute; reflexivity].
Defined.

(** ** Further properties at work *)

Lemma MLP_state_ready : MLP_ready MLP_value 4 MLP_state.
Proof.
  unfold MLP_ready, layers_ready. cbn [dense0 dense1 dense2 MLP_value].
  split_and!; (eexists _, _; split;
               (eexists; split; [reflexivity|split; reflexivity])).
Qed.

Lemma net1_forward_run :
  ∃ y, forward net1_value picture net1_noted_state = (Ok y, net1_state).
Proof. eexists. vm_compute. reflexivity. Qed.

(** Witness of X1: the first call of the [MLP] on the picture. *)
Lemma MLP_forward_touches_own_parameters_witness :
  ∃ y, forward MLP_value picture MLP_noted_state = (Ok y, MLP_state)
       ∧ next_id MLP_state = next_id MLP_noted_state
       ∧ ∀ p, p ∉ collect_params MLP_value →
              heap MLP_state !! p = heap MLP_noted_state !! p.
Proof.
  destruct MLP_first_forward as [y Hy]. exists y. split; [exact Hy|].
  exact (MLP_forward_touches_own_parameters MLP_value picture
           MLP_noted_state (Ok y) MLP_state Hy).
Defined.

(** Witness of X2: the first call of [net1] on the picture. *)
Lemma Sequential_forward_touches_own_parameters_witness :
  ∃ y, forward net1_value picture net1_noted_state = (Ok y, net1_state)
       ∧ next_id net1_state = next_id net1_noted_state
       ∧ ∀ p, p ∉ collect_params net1_value →
              heap net1_state !! p = heap net1_noted_state !! p.
Proof.
  destruct net1_forward_run as [y Hy]. exists y. split; [exact Hy|].
  assert (Hc : Forall (λ c, ∀ z, touches (child_params c) (child_call c z))
                 (_children net1_value)).
  { repeat (constructor; [intros z; apply touches_Dense_forward|]).
    constructor. }
  apply (Sequential_forward_touches_own_parameters net1_value picture
           net1_noted_state (Ok y) net1_state Hc), Hy.
Defined.

Lemma net1_built_run :
  net1_cell "sequential0_" fresh = (Ok net1_value, net1_built_state).
Proof.
  transitivity (Ok net1_value, (net1_cell "sequential0_" fresh).2);
    [reflexivity|].
  f_equal; vm_compute; reflexivity.
Qed.

Lemma MLP_second_run :
  MLP_init "mlp0_" net1_built_state = (Ok MLP_second, both_built_state).
Proof.
  transitivity (Ok MLP_second, (MLP_init "mlp0_" net1_built_state).2);
    [reflexivity|].
  f_equal; vm_compute; reflexivity.
Qed.

Lemma MLP_built_run :
  MLP_init "mlp0_" fresh = (Ok MLP_value, MLP_built_state).
Proof.
  transitivity (Ok MLP_value, (MLP_init "mlp0_" fresh).2); [reflexivity|].
  f_equal; vm_compute; reflexivity.
Qed.

(** Witness of X5: [net1] and then an [MLP] in a kernel that has just
    started. *)
Lemma networks_do_not_share_parameters_witness :
  net1_cell "sequential0_" fresh = (Ok net1_value, net1_built_state)
  ∧ MLP_init "mlp0_" net1_built_state = (Ok MLP_second, both_built_state)
  ∧ ∀ p, p ∈ collect_params net1_value → p ∉ collect_params MLP_second.
Proof.
  split; [exact net1_built_run|]. split; [exact MLP_second_run|].
  exact (proj1 (networks_do_not_share_parameters "sequential0_" "mlp0_"
                  fresh net1_built_state both_built_state net1_value
                  MLP_second net1_built_run MLP_second_run)).
Defined.

(** Witness of X6: the [MLP] returns 10 numbers for the picture. *)
Lemma MLP_output_is_well_formed_witness :
  nd_shape picture = 1 :: [2; 2]
  ∧ ∃ y, forward MLP_value picture MLP_noted_state = (Ok y, MLP_state)
         ∧ length (nd_data y) = 10 ∧ well_formed y.
Proof.
  split; [reflexivity|]. destruct MLP_first_forward as [y Hy].
  exists y. split; [exact Hy|].
  exact (MLP_output_is_well_formed MLP_value picture MLP_noted_state y
           MLP_state 1 [2; 2] Hy eq_refl).
Defined.

(** Witness of X7: after its first call on the picture the [MLP] is
    ready for rows of length 4, and accepts two such rows. *)
Lemma MLP_forward_when_ready_witness :
  MLP_ready MLP_value 4 MLP_state
  ∧ nd_shape two_rows = 2 :: [4]
  ∧ prod_shape [4] = 4
  ∧ ∃ y, forward MLP_value two_rows MLP_state = (Ok y, MLP_state)
         ∧ nd_shape y = [2; 10].
Proof.
  split; [exact MLP_state_ready|]. split; [reflexivity|].
  split; [reflexivity|].
  apply (MLP_forward_when_ready MLP_value 4 MLP_state two_rows 2 [4]
           MLP_state_ready eq_refl eq_refl).
  discriminate.
Defined.

(** Witness of X8: after that, rows of length 3 are refused. *)
Lemma MLP_forward_wrong_input_size_witness :
  MLP_ready MLP_value 4 MLP_state
  ∧ (∀ n rest, nd_shape short_row = n :: rest → prod_shape rest ≠ 4)
  ∧ forward MLP_value short_row MLP_state = (Raise MXNetError, MLP_state).
Proof.
  assert (Hx : ∀ n rest, nd_shape short_row = n :: rest
                         → prod_shape rest ≠ 4).
  { intros n rest [= <- <-]. discriminate. }
  split; [exact MLP_state_ready|]. split; [exact Hx|].
  exact (MLP_forward_wrong_input_size MLP_value 4 MLP_state short_row
           MLP_state_ready Hx).
Defined.

(** Witness of X9: the [MLP] of a kernel that has just started, before
    [initialize]. *)
Lemma forward_before_initialize_raises_witness :
  MLP_init "mlp0_" fresh = (Ok MLP_value, MLP_built_state)
  ∧ forward MLP_value picture MLP_built_state
    = (Raise RuntimeError, MLP_built_state).
Proof.
  split; [exact MLP_built_run|].
  exact (proj1 (forward_before_initialize_raises "mlp0_" fresh
                  MLP_built_state picture) MLP_value MLP_built_run).
Defined.

(** Witness of X10, on the picture and with the default initializer. *)
Lemma MLP_first_call_witness :
  nd_shape picture = 1 :: [2; 2]
  ∧ prod_shape [2; 2] ≠ 0
  ∧ ∃ (net : MLP) (σ1 σ2 : State Z Z) y σ3,
      MLP_init "mlp0_" fresh = (Ok net, σ1)
      ∧ initialize net Uniform σ1 = (Ok (), σ2)
      ∧ forward net picture σ2 = (Ok y, σ3)
      ∧ nd_shape y = [1; 10]
      ∧ MLP_ready net 4 σ3.
Proof.
  split; [reflexivity|]. split; [by cbv|].
  destruct (MLP_first_call "mlp0_" Uniform fresh picture 1 [2; 2]
              eq_refl ltac:(by cbv))
    as (net & σ1 & σ2 & Hc & Hi & _ & _ & Hf & _).
  destruct (Hf ltac:(discriminate)) as (y & σ3 & Hy & Hs & Hr & _).
  exists net, σ1, σ2, y, σ3. by split_and!.
Defined.

(** Witness of X13: the [MLP] is called on the picture a second time. *)
Lemma MLP_forward_repeatable_witness :
  NoDup (collect_params MLP_value)
  ∧ ∃ y, forward MLP_value picture MLP_noted_state = (Ok y, MLP_state)
         ∧ forward MLP_value picture MLP_state = (Ok y, MLP_state).
Proof.
  assert (Hn : NoDup (collect_params MLP_value)).
  { change (NoDup [0; 1; 2; 3; 4; 5]).
    repeat (apply NoDup_cons;
            split; [rewrite ?elem_of_cons, elem_of_nil; lia|]).
    apply NoDup_nil_2. }
  split; [exact Hn|]. destruct MLP_first_forward as [y Hy].
  exists y. split; [exact Hy|].
  exact (MLP_forward_repeatable MLP_value picture MLP_noted_state y
           MLP_state Hn Hy).
Defined.
